(** * The PyBuilder coverage plugin

    A shallow embedding of
    [src/main/python/pybuilder/plugins/python/coverage_plugin.py].

    The plugin is orchestration code: it drives the coverage instrumenter,
    the task executor of the build tool, the project's property registry,
    the logger and the report sink.  These collaborators are not part of
    the plugin; the model takes their answers from a record of oracles
    ([collaborators]) and writes every call the plugin makes to them into a
    trace, oldest call first.  The state the plugin itself reads and writes
    (the project properties, [sys.modules]) is threaded explicitly.

    The module imports [io.StringIO] where [StringIO] is missing and has no
    [from __future__ import division]: it runs on Python 3, and the model
    follows that interpreter.  [/] on two [int]s is true division and gives
    a [float], which the model holds as the exact quotient, a rational (the
    rounding of the quotient to a double is not modelled); dividing by 0
    raises.  Comparing a number with [None], a string or a list raises
    [TypeError], and so does [in] on a value that is not a container; [in]
    on a string is the substring test.

    The task runs plugin code that holds the project: it may write
    properties, import modules and raise.  [imp.reload] runs the body of a
    module again: it may change [sys.modules] and raise.  Every call of the
    instrumenter that can fail at run time ([analysis], [report],
    [xml_report], [save]) may raise. *)

From stdpp Require Import base strings list gmap pretty.
From Stdlib Require Import ZArith Lia QArith Lqa.

Local Open Scope Z_scope.

(** ** Numbers and values *)

(** A Python number: an [int] or a [float]. *)
Inductive number :=
| Int (z : Z)
| Float (q : Q).

Definition to_Q (x : number) : Q :=
  match x with
  | Int z => inject_Z z
  | Float q => q
  end.

(** [x < y] on numbers; Python compares an [int] with a [float] exactly. *)
Definition number_ltb (x y : number) : bool :=
  negb (Qle_bool (to_Q y) (to_Q x)).

(** What ["%d" % x] prints of a number: a [float] is cut towards 0. *)
Definition trunc (x : number) : Z :=
  match x with
  | Int z => z
  | Float q => Z.quot (Qnum q) (Zpos (Qden q))
  end.

(** What a project property or a format argument can hold. *)
Inductive value :=
| VNone
| VBool (b : bool)
| VInt (z : Z)
| VFloat (q : Q)
| VStr (s : string)
| VList (l : list string).

Definition value_of (x : number) : value :=
  match x with
  | Int z => VInt z
  | Float q => VFloat q
  end.

(** Python truthiness, as [if] and [and] apply it. *)
Definition truth (v : value) : bool :=
  match v with
  | VNone => false
  | VBool b => b
  | VInt z => negb (z =? 0)
  | VFloat q => negb (Qeq_bool q 0)
  | VStr s => negb (String.eqb s "")
  | VList l => match l with [] => false | _ :: _ => true end
  end.

(** The number a value is, where it is one ([bool] is a kind of [int]). *)
Definition as_number (v : value) : option number :=
  match v with
  | VBool b => Some (Int (if b then 1 else 0))
  | VInt z => Some (Int z)
  | VFloat q => Some (Float q)
  | VNone | VStr _ | VList _ => None
  end.

(** [name in v]: membership in a list, the substring test on a string;
    [None] where Python raises [TypeError]. *)
Definition contains (v : value) (name : string) : option bool :=
  match v with
  | VList l => Some (bool_decide (name ∈ l))
  | VStr s =>
      Some (match String.index 0 name s with Some _ => true | None => false end)
  | VNone | VBool _ | VInt _ | VFloat _ => None
  end.

(** [len(l)] *)
Definition len {A} (l : list A) : Z := Z.of_nat (length l).

(** ["%d" % x] and ["%2d" % x]: decimal digits, the latter right-aligned in
    a field of at least two characters. *)
Definition fmt_d (z : Z) : string := pretty z.

Definition fmt_2d (z : Z) : string :=
  let s := pretty z in
  if (String.length s <? 2)%nat then " " +:+ s else s.

(** ** Exceptions *)

(** Modelled from the spec: [BuildFailedException] of [pybuilder.errors],
    which is not among the sources; the build-failure signal is "raised with
    a descriptive message and the threshold value", so the exception keeps
    its message and its further arguments.  [CoverageException] is the
    instrumenter's, [TypeError] and [ZeroDivisionError] are the
    interpreter's, [OtherException] stands for whatever else a collaborator
    may raise. *)
Inductive exn :=
| BuildFailedException (message : string) (arguments : list value)
| CoverageException (message : string)
| TypeError
| ZeroDivisionError
| OtherException (name : string).

Inductive result (A : Type) :=
| Return (a : A)
| Raise (e : exn).
Arguments Return {A} a.
Arguments Raise {A} e.

(** [a / b] on two [int]s. *)
Definition truediv (a b : Z) : result number :=
  if b =? 0 then Raise ZeroDivisionError
  else Return (Float (inject_Z a / inject_Z b)).

(** ** Modules and the instrumenter's analysis *)

(** A loaded module object, as far as the plugin looks at it. *)
Record module := Module {
  module__name__ : string;
  module__file__ : string
}.

(** The tuple [coverage.analysis(module)] returns: the file name, the
    executable lines (index 1), the lines not executed (index 2) and the
    latter as text. *)
Record analysis_result := AnalysisResult {
  analysis_filename : string;
  analysis_statements : list Z;
  analysis_missing : list Z;
  analysis_missing_text : string
}.

(** One entry of [report["module_names"]]. *)
Record module_report := ModuleReport {
  report_module : string;
  report_coverage : number;
  report_sum_lines : Z;
  report_lines : list Z;
  report_sum_lines_not_covered : Z;
  report_lines_not_covered : list Z
}.

(** The [report] dictionary: ["module_names"] and, once computed,
    ["overall_coverage"]. *)
Record report_dict := Report {
  dict_module_names : list module_report;
  dict_overall_coverage : option number
}.

(** What is handed to [project.write_report]: the [report] dictionary as
    [render_report] of [pybuilder.utils] (not among the sources) renders it,
    or a text. *)
Inductive report_content :=
| Rendered (r : report_dict)
| Text (s : string).

(** ** The trace of calls to collaborators *)

Inductive level := DEBUG | INFO | WARN.

#[warnings="-register-all"]
Inductive event :=
| BuildDependsOn (name : string)
| CoverageFactory (source : list value)
| CoverageErase
| CoverageStart
| CoverageStop
| SetProperty (key : string) (v : value)
| ExecuteTask (task : string)
| Reload (name : string)
| CoverageAnalysis (m : module)
| Log (lvl : level) (msg : string) (args : list value)
| WriteReport (name : string) (content : report_content)
| CoverageReport (modules : list module)
| CoverageXmlReport (outfile : string)
| CoverageSave
| ProcessRun (child : list event) (exitcode : Z).

(** ** Collaborators *)

Record collaborators := Collaborators {
  (** [project.expand_path] *)
  expand_path : string → string;
  (** [pybuilder.utils.discover_modules] *)
  discover_modules : string → list string;
  (** [reactor.execute_task]: the task sees the project's properties and
      the loaded modules; it returns or raises, and leaves the properties
      and [sys.modules] as it made them. *)
  task : string → gmap string value → gmap string module →
         result () * gmap string value * gmap string module;
  (** [imp.reload(module)]: the body of the module runs again; it returns
      or raises, and leaves [sys.modules] as it made it. *)
  reload : module → gmap string module → result () * gmap string module;
  (** [coverage.analysis] *)
  analysis : module → result analysis_result;
  (** [coverage.report(modules, file=summary)]: the text written to
      [summary], or the exception raised. *)
  coverage_report : list module → result string;
  (** [coverage.xml_report(outfile=...)] *)
  coverage_xml_report : string → result ();
  (** [coverage.save()] *)
  coverage_save : result ();
  (** [multiprocessing.Process]: the exit code of the child, from how its
      target ended. *)
  process_exitcode : result () → Z
}.

(** ** State *)

Record world := World {
  properties : gmap string value;
  sys_modules : gmap string module;
  trace : list event
}.

(** ** The monad of the plugin's code: state and exceptions *)

Definition M (A : Type) : Type := world → result A * world.

Global Instance M_ret : MRet M := λ A a w, (Return a, w).

Global Instance M_bind : MBind M := λ A B f m w,
  match m w with
  | (Return a, w') => f a w'
  | (Raise e, w') => (Raise e, w')
  end.

Definition raise {A} (e : exn) : M A := λ w, (Raise e, w).

(** The outcome of a computation that does not touch the state. *)
Definition lift {A} (r : result A) : M A := λ w, (r, w).

(** A test that raises [TypeError] where it has no answer. *)
Definition test (b : option bool) : M bool :=
  match b with
  | Some b => mret b
  | None => raise TypeError
  end.

(** [try: body except CoverageException: pass] *)
Definition except_CoverageException (body : M ()) : M () := λ w,
  match body w with
  | (Raise (CoverageException _), w') => (Return (), w')
  | r => r
  end.

Definition emit (e : event) : M () := λ w,
  (Return (), World (properties w) (sys_modules w) (trace w ++ [e])).

Definition get_sys_modules : M (gmap string module) := λ w,
  (Return (sys_modules w), w).

(** Modelled from the spec: the project's property registry
    ([get_property], [set_property] and [set_property_if_unset] of
    [pybuilder.core], which is not among the sources): a map from keys to
    values, written by [set_property], and by [set_property_if_unset] only
    for a key without a value; reading a key without a value gives
    [None]. *)
Definition property_value (props : gmap string value) (key : string) : value :=
  default VNone (props !! key).

Definition get_property (key : string) : M value := λ w,
  (Return (property_value (properties w) key), w).

Definition set_property (key : string) (v : value) : M () := λ w,
  (Return (),
   World (<[key := v]> (properties w)) (sys_modules w)
         (trace w ++ [SetProperty key v])).

Definition set_property_if_unset (key : string) (v : value) : M () := λ w,
  match properties w !! key with
  | Some _ => (Return (), w)
  | None => set_property key v w
  end.

(** A call whose answer the oracle gives. *)
Definition call {A} (e : event) (r : result A) : M A := λ w,
  (r, World (properties w) (sys_modules w) (trace w ++ [e])).

Definition logger (lvl : level) (msg : string) (args : list value) : M () :=
  emit (Log lvl msg args).

(** [for x in xs: acc = body(x, acc)] *)
Fixpoint for_each {A L} (xs : list A) (body : A → L → M L) (acc : L) : M L :=
  match xs with
  | [] => mret acc
  | x :: xs' => acc' ← body x acc; for_each xs' body acc'
  end.

Global Instance result_ret : MRet result := λ A a, Return a.

Global Instance result_bind : MBind result := λ A B f r,
  match r with
  | Return a => f a
  | Raise e => Raise e
  end.

(** A value used as a number: [TypeError] unless it is one. *)
Definition number_of (v : value) : M number :=
  match as_number v with
  | Some x => mret x
  | None => raise TypeError
  end.

Section plugin.

Variable c : collaborators.

(** ** The plugin *)

Definition init_coverage_properties : M () :=
  emit (BuildDependsOn "coverage") ;;
  set_property_if_unset "coverage_threshold_warn" (VInt 70) ;;
  set_property_if_unset "coverage_break_build" (VBool true) ;;
  set_property_if_unset "coverage_reload_modules" (VBool true) ;;
  set_property_if_unset "coverage_exceptions" (VList []) ;;
  set_property_if_unset "coverage_fork" (VBool false).

Definition _discover_modules_to_cover : M (list string) :=
  mret (discover_modules c (expand_path c "$dir_source_main_python")).

Definition _start_coverage : M () :=
  emit CoverageErase ;;
  emit CoverageStart.

(** [imp.reload(sys.modules[module])] *)
Definition reload_module (name : string) (m : module) : M () := λ w,
  let '(r, loaded) := reload c m (sys_modules w) in
  (r, World (properties w) loaded (trace w ++ [Reload name])).

Definition _reimport_source_modules (execution_prefix : string) : M () :=
  reload_modules ← get_property (execution_prefix +:+ "_reload_modules");
  if truth reload_modules then
    modules ← _discover_modules_to_cover;
    for_each modules (λ module _,
      logger DEBUG "Reloading module %s" [VStr module] ;;
      loaded ← get_sys_modules;
      match loaded !! module with
      | Some m => reload_module module m
      | None => mret ()
      end) ()
  else mret ().

Definition _stop_coverage (execution_prefix : string) : M () :=
  _reimport_source_modules execution_prefix ;;
  emit CoverageStop.

(** [coverage.analysis] is the only call [build_module_report] makes; the
    trace entry for it is written where [do_coverage] calls the function. *)
Definition build_module_report (module : module)
  : result (Z * list Z * Z * list Z * number) :=
  analysis_result ← analysis c module;
  let lines_total := len (analysis_statements analysis_result) in
  let lines_not_covered := len (analysis_missing analysis_result) in
  let lines_covered := lines_total - lines_not_covered in
  code_coverage ←
    (if lines_total =? 0 then mret (Int 100)
     else if lines_covered =? 0 then mret (Int 0)
     else truediv (lines_covered * 100) lines_total);
  mret (lines_total, analysis_statements analysis_result,
        lines_not_covered, analysis_missing analysis_result,
        code_coverage).

(** The local variables of [do_coverage] that its loop updates. *)
Record locals := Locals {
  coverage_too_low : bool;
  report : report_dict;
  sum_lines : Z;
  sum_lines_not_covered : Z;
  modules : list module
}.

Definition execute_task (target_task : string) : M () := λ w,
  let '(r, props, loaded) :=
    task c target_task (properties w) (sys_modules w) in
  (r, World props loaded (trace w ++ [ExecuteTask target_task])).

(** Lines 96-129: the body of [for module_name in module_names]. *)
Definition analyse_module (threshold exceptions : value)
    (module_name : string) (l : locals) : M locals :=
  loaded ← get_sys_modules;
  match loaded !! module_name with
  | None =>
      logger WARN ("Module not imported: " +:+ module_name
                   +:+ ". No coverage information available.") [] ;;
      mret l
  | Some module =>
      let modules := modules l ++ [module] in
      emit (CoverageAnalysis module) ;;
      module_report_data ← lift (build_module_report module);
      let '(data0, data1, data2, data3, data4) := module_report_data in
      should_ignore_module ← test (contains exceptions module_name);
      let sum_lines :=
        if negb should_ignore_module then sum_lines l + data0
        else sum_lines l in
      let sum_lines_not_covered :=
        if negb should_ignore_module then sum_lines_not_covered l + data2
        else sum_lines_not_covered l in
      let module_report :=
        ModuleReport module_name data4 data0 data1 data2 data3 in
      let report :=
        Report (dict_module_names (report l) ++ [module_report])
               (dict_overall_coverage (report l)) in
      limit ← number_of threshold;
      if number_ltb data4 limit then
        let msg := "Test coverage below " +:+ fmt_2d (trunc limit)
                   +:+ "% for " +:+ module_name +:+ ": "
                   +:+ fmt_2d (trunc data4) +:+ "%" in
        if negb should_ignore_module then
          logger WARN msg [] ;;
          mret (Locals true report sum_lines sum_lines_not_covered modules)
        else
          logger INFO msg [] ;;
          mret (Locals (coverage_too_low l) report sum_lines
                       sum_lines_not_covered modules)
      else
        mret (Locals (coverage_too_low l) report sum_lines
                     sum_lines_not_covered modules)
  end.

(** Lines 72-81 of [do_coverage]: the target task under instrumentation. *)
Definition do_coverage_run (execution_prefix target_task : string) : M () :=
  source_tree_path ← get_property "dir_source_main_python";
  emit (CoverageFactory [source_tree_path]) ;;
  _start_coverage ;;
  set_property "__running_coverage" (VBool true) ;;
  execute_task target_task ;;
  set_property "__running_coverage" (VBool false) ;;
  _stop_coverage execution_prefix.

(** Lines 83-141 of [do_coverage], line 84 apart: the per-module loop and
    the overall figure.  The result is the local variables as line 141
    leaves them. *)
Definition do_coverage_analyse (execution_prefix execution_name : string)
    (threshold : value) : M locals :=
  exceptions ← get_property (execution_prefix +:+ "_exceptions");
  module_names ← _discover_modules_to_cover;
  l ← for_each module_names (analyse_module threshold exceptions)
        (Locals false (Report [] None) 0 0 []);
  overall_coverage ←
    lift (if sum_lines l =? 0 then mret (Int 0)
          else truediv ((sum_lines l - sum_lines_not_covered l) * 100)
                       (sum_lines l));
  let report := Report (dict_module_names (report l)) (Some overall_coverage) in
  limit ← number_of threshold;
  if number_ltb overall_coverage limit then
    logger WARN "Overall %s is below %2d%%: %2d%%"
           [VStr execution_name; threshold; value_of overall_coverage] ;;
    mret (Locals true report (sum_lines l) (sum_lines_not_covered l)
                 (modules l))
  else
    logger INFO "Overall %s is %2d%%"
           [VStr execution_name; value_of overall_coverage] ;;
    mret (Locals (coverage_too_low l) report (sum_lines l)
                 (sum_lines_not_covered l) (modules l)).

Definition _write_summary_report (modules : list module)
    (execution_prefix : string) : M () :=
  summary ← call (CoverageReport modules) (coverage_report c modules);
  except_CoverageException (
    let outfile :=
      expand_path c ("$dir_reports/" +:+ execution_prefix +:+ ".xml") in
    call (CoverageXmlReport outfile) (coverage_xml_report c outfile) ;;
    call CoverageSave (coverage_save c)) ;;
  emit (WriteReport execution_prefix (Text summary)).

(** Lines 143-148 of [do_coverage]: the reports and the threshold check. *)
Definition do_coverage_finish (execution_prefix : string) (threshold : value)
    (l : locals) : M () :=
  emit (WriteReport (execution_prefix +:+ ".json") (Rendered (report l))) ;;
  _write_summary_report (modules l) execution_prefix ;;
  break_build ← get_property (execution_prefix +:+ "_break_build");
  if coverage_too_low l && truth break_build then
    raise (BuildFailedException
             "Test coverage for at least one module is below %d%%"
             [threshold])
  else mret ().

Definition do_coverage (execution_prefix execution_name target_task : string)
  : M () :=
  do_coverage_run execution_prefix target_task ;;
  threshold ← get_property (execution_prefix +:+ "_threshold_warn");
  l ← do_coverage_analyse execution_prefix execution_name threshold;
  do_coverage_finish execution_prefix threshold l.

(** [process.start(); process.join()]: the child runs [target] on its own
    copy of the state; the parent keeps its state and learns the exit
    code. *)
Definition start_and_join (target : M ()) : M Z := λ w,
  let '(r, child) := target (World (properties w) (sys_modules w) []) in
  let exitcode := process_exitcode c r in
  (Return exitcode,
   World (properties w) (sys_modules w)
         (trace w ++ [ProcessRun (trace child) exitcode])).

Definition run_coverage (execution_prefix execution_name target_task : string)
  : M () :=
  logger INFO "Collecting coverage information" [] ;;
  fork ← get_property (execution_prefix +:+ "_fork");
  if truth fork then
    logger DEBUG "Forking process to do %s analysis" [VStr execution_name] ;;
    exitcode ← start_and_join
                 (do_coverage execution_prefix execution_name target_task);
    break_build ← get_property (execution_prefix +:+ "_break_build");
    if negb (exitcode =? 0) && truth break_build then
      raise (BuildFailedException
               ("Forked " +:+ execution_name
                +:+ " process indicated failure with error code "
                +:+ fmt_d exitcode) [])
    else mret ()
  else
    do_coverage execution_prefix execution_name target_task.

Definition verify_coverage : M () :=
  run_coverage "coverage" "coverage" "run_unit_tests".

End plugin.
(** ** The claims of the specification, in the spec's words *)

Definition sumZ (l : list Z) : Z := foldr Z.add 0 l.

(** The percentage of a module from the instrumenter's analysis, as the
    specification orders the cases: 100 without executable lines, else 0
    without covered lines, else the quotient. *)
Definition code_coverage_of (a : analysis_result) : number :=
  let total := len (analysis_statements a) in
  let covered := total - len (analysis_missing a) in
  if decide (total = 0) then Int 100
  else if decide (covered = 0) then Int 0
  else Float (inject_Z (covered * 100) / inject_Z total).



(** The modules the loop of [do_coverage] analyses: the discovered names
    that are keys of [sys.modules], in the order of discovery, each with
    its module object. *)
Definition analysed (loaded : gmap string module) (names : list string)
  : list (string * module) :=
  omap (λ name, pair name <$> loaded !! name) names.

(** ... of which those not in the exception list count for the sums. *)
Definition counted (exceptions : list string) (ms : list (string * module))
  : list (string * module) :=
  filter (λ p, p.1 ∉ exceptions) ms.

Definition total_lines_all_modules (a : module → analysis_result)
    (exceptions : list string) (ms : list (string * module)) : Z :=
  sumZ ((λ p, len (analysis_statements (a p.2))) <$> counted exceptions ms).

Definition uncovered_lines_all_modules (a : module → analysis_result)
    (exceptions : list string) (ms : list (string * module)) : Z :=
  sumZ ((λ p, len (analysis_missing (a p.2))) <$> counted exceptions ms).

Definition overall_coverage_as_stated (a : module → analysis_result)
    (exceptions : list string) (ms : list (string * module)) : number :=
  let total := total_lines_all_modules a exceptions ms in
  let uncovered := uncovered_lines_all_modules a exceptions ms in
  if decide (total = 0) then Int 0
  else Float (inject_Z ((total - uncovered) * 100) / inject_Z total).

(** The instrumenter answers [a m] for each of the modules. *)
Definition analysis_is (c : collaborators) (a : module → analysis_result)
    (ms : list (string * module)) : Prop :=
  ∀ n m, (n, m) ∈ ms → analysis c m = Return (a m).

(** The entry of [report["module_names"]] for a module. *)
Definition module_report_of (a : module → analysis_result)
    (p : string * module) : module_report :=
  ModuleReport p.1 (code_coverage_of (a p.2))
               (len (analysis_statements (a p.2)))
               (analysis_statements (a p.2))
               (len (analysis_missing (a p.2)))
               (analysis_missing (a p.2)).

Definition below_threshold_message (limit : number) (name : string)
    (pct : number) : string :=
  "Test coverage below " +:+ fmt_2d (trunc limit) +:+ "% for "
  +:+ name +:+ ": " +:+ fmt_2d (trunc pct) +:+ "%".

(** What one round of the loop adds to the trace. *)
Definition analyse_events (a : module → analysis_result) (limit : number)
    (exceptions : list string) (loaded : gmap string module) (name : string)
  : list event :=
  match loaded !! name with
  | None =>
      [Log WARN ("Module not imported: " +:+ name
                 +:+ ". No coverage information available.") []]
  | Some m =>
      CoverageAnalysis m ::
      if number_ltb (code_coverage_of (a m)) limit then
        [Log (if bool_decide (name ∈ exceptions) then INFO else WARN)
             (below_threshold_message limit name (code_coverage_of (a m)))
             []]
      else []
  end.

(** A module that fails the run: not exempted and below the threshold. *)
Definition fails_threshold (a : module → analysis_result) (limit : number)
    (exceptions : list string) (p : string * module) : bool :=
  bool_decide (p.1 ∉ exceptions)
  && number_ltb (code_coverage_of (a p.2)) limit.

(** What the loop adds to the trace after its last round. *)
Definition overall_event (execution_name : string) (threshold : value)
    (limit overall : number) : event :=
  if number_ltb overall limit then
    Log WARN "Overall %s is below %2d%%: %2d%%"
        [VStr execution_name; threshold; value_of overall]
  else
    Log INFO "Overall %s is %2d%%" [VStr execution_name; value_of overall].

(** An instrumenter call that returns, or raises its "no data" exception. *)
Definition returns_or_no_data {A} (r : result A) : Prop :=
  match r with
  | Return _ | Raise (CoverageException _) => True
  | Raise _ => False
  end.

(** The reload loop of [_reimport_source_modules] on its own: how it ends,
    the table it leaves and the calls it makes, for the table it starts
    from. *)
Fixpoint reimport_run (c : collaborators) (names : list string)
    (loaded : gmap string module)
  : result () * gmap string module * list event :=
  match names with
  | [] => (Return (), loaded, [])
  | name :: names' =>
      let debug := Log DEBUG "Reloading module %s" [VStr name] in
      match loaded !! name with
      | None =>
          let '(r, loaded', events) := reimport_run c names' loaded in
          (r, loaded', debug :: events)
      | Some m =>
          match reload c m loaded with
          | (Raise e, loaded') => (Raise e, loaded', [debug; Reload name])
          | (Return _, loaded') =>
              let '(r, loaded'', events) := reimport_run c names' loaded' in
              (r, loaded'', debug :: Reload name :: events)
          end
      end
  end.

(** What the reload step does after a task that returned: how it ends, the
    table it leaves, its calls. *)
Definition reimport_after (c : collaborators) (prefix : string)
    (props : gmap string value) (loaded : gmap string module)
  : result () * gmap string module * list event :=
  if truth (property_value props (prefix +:+ "_reload_modules"))
  then reimport_run c
         (discover_modules c (expand_path c "$dir_source_main_python"))
         loaded
  else (Return (), loaded, []).

(** The calls [do_coverage] makes once the instrumenter is stopped: analysis,
    logging and report writing. *)
Definition reporting_event (e : event) : Prop :=
  match e with
  | CoverageAnalysis _ | Log _ _ _ | WriteReport _ _
  | CoverageReport _ | CoverageXmlReport _ | CoverageSave => True
  | _ => False
  end.

(** A step that only reports: it leaves the properties and [sys.modules]
    alone and adds reporting calls to the trace. *)
Definition reports_only (w w' : world) : Prop :=
  ∃ events,
    w' = World (properties w) (sys_modules w) (trace w ++ events)
    ∧ Forall reporting_event events.

(** The last character of a key; the configuration keys and
    ["__running_coverage"] differ in it. *)
Fixpoint last_char (s : string) : option Ascii.ascii :=
  match s with
  | EmptyString => None
  | String a s' =>
      match s' with
      | EmptyString => Some a
      | String _ _ => last_char s'
      end
  end.

(** The reload step as the specification words it: with the flag set, a
    reload comes after the instrumenter has stopped and before any analysis
    is requested; with the flag unset there is no reload. *)
Definition reload_step_as_stated (reload_modules : bool)
    (events : list event) : Prop :=
  if reload_modules then
    ∀ before n after,
      events = before ++ Reload n :: after →
      CoverageStop ∈ before ∧ ∀ m, CoverageAnalysis m ∉ before
  else ∀ n, Reload n ∉ events.

(** The end of a run as the specification words it: [do_coverage] raises a
    build failure if and only if its flag is set and break-build is true. *)
Definition build_failure_as_stated (c : collaborators)
    (prefix name target : string) (w : world) : Prop :=
  (∃ message arguments,
     (do_coverage c prefix name target w).1
     = Raise (BuildFailedException message arguments))
  ↔ (∃ w1 l w2,
       do_coverage_run c prefix target w = (Return (), w1)
       ∧ do_coverage_analyse c prefix name
           (property_value (properties w1) (prefix +:+ "_threshold_warn")) w1
         = (Return l, w2)
       ∧ coverage_too_low l = true
       ∧ truth (property_value (properties w1) (prefix +:+ "_break_build"))
         = true).

(** The defaults of [init_coverage_properties], in the order it sets
    them. *)
Definition coverage_defaults : list (string * value) :=
  [("coverage_threshold_warn", VInt 70);
   ("coverage_break_build", VBool true);
   ("coverage_reload_modules", VBool true);
   ("coverage_exceptions", VList []);
   ("coverage_fork", VBool false)].

(** ** A concrete project

    A package of three source modules and one file that is never imported.
    [pkg] (an empty [__init__]) and [pkg.a] are loaded before the run, the
    unit tests import [pkg.b].  [pkg.new] is a module no test has touched. *)

Definition module_of (name : string) : module := Module name (name +:+ ".py").

Definition demo_analysis (m : module) : analysis_result :=
  if String.eqb (module__name__ m) "pkg" then
    AnalysisResult "pkg.py" [] [] ""
  else if String.eqb (module__name__ m) "pkg.a" then
    AnalysisResult "pkg.a.py" [1; 2; 3] [2] "2"
  else if String.eqb (module__name__ m) "pkg.new" then
    AnalysisResult "pkg.new.py" [1; 2] [1; 2] "1-2"
  else
    AnalysisResult "pkg.b.py" [1; 2; 3; 4] [1; 2; 3] "1-3".

Definition demo : collaborators := {|
  expand_path := λ path, path;
  discover_modules := λ _, ["pkg"; "pkg.a"; "pkg.b"; "pkg.gone"];
  task := λ _ props loaded,
    (Return (), props, <["pkg.b" := module_of "pkg.b"]> loaded);
  reload := λ _ loaded, (Return (), loaded);
  analysis := λ m, Return (demo_analysis m);
  coverage_report := λ _, Return "Name  Stmts  Miss  Cover";
  coverage_xml_report := λ _, Raise (CoverageException "No data to report.");
  coverage_save := Return ();
  process_exitcode := λ r, match r with Return _ => 0 | Raise _ => 1 end
|}.

Definition demo_world : world :=
  (init_coverage_properties
     (World ∅
            (<["pkg" := module_of "pkg"]>
               (<["pkg.a" := module_of "pkg.a"]> ∅))
            [])).2.

(** The same project when the instrumenter has no data for the text
    report either. *)
Definition demo_no_data : collaborators := {|
  expand_path := expand_path demo;
  discover_modules := discover_modules demo;
  task := task demo;
  reload := reload demo;
  analysis := analysis demo;
  coverage_report := λ _, Raise (CoverageException "No data to report.");
  coverage_xml_report := coverage_xml_report demo;
  coverage_save := coverage_save demo;
  process_exitcode := process_exitcode demo
|}.

(** The same project when the unit tests fail. *)
Definition demo_failing_tests : collaborators := {|
  expand_path := expand_path demo;
  discover_modules := discover_modules demo;
  task := λ _ props loaded,
    (Raise (BuildFailedException "There were test failures" []),
     props, loaded);
  reload := reload demo;
  analysis := analysis demo;
  coverage_report := coverage_report demo;
  coverage_xml_report := coverage_xml_report demo;
  coverage_save := coverage_save demo;
  process_exitcode := process_exitcode demo
|}.

(** The same project when the XML report cannot be written. *)
Definition demo_xml_fails : collaborators := {|
  expand_path := expand_path demo;
  discover_modules := discover_modules demo;
  task := task demo;
  reload := reload demo;
  analysis := analysis demo;
  coverage_report := coverage_report demo;
  coverage_xml_report := λ _, Raise (OtherException "IOError");
  coverage_save := coverage_save demo;
  process_exitcode := process_exitcode demo
|}.

(** The same project after the tests, with [pkg.b] exempted. *)
Definition demo_world_exempt : world :=
  World (<["coverage_exceptions" := VList ["pkg.b"]]> (properties demo_world))
        (<["pkg.b" := module_of "pkg.b"]> (sys_modules demo_world))
        [].

(** The same project configured to measure in a child process. *)
Definition demo_world_fork : world :=
  World (<["coverage_fork" := VBool true]> (properties demo_world))
        (sys_modules demo_world) (trace demo_world).

(** * Theorems *)

(** ** Numbers *)

Lemma len_nonneg {A} (l : list A) : 0 ≤ len l.
Proof. unfold len. lia. Qed.

Lemma len_nil_iff {A} (l : list A) : len l = 0 ↔ l = [].
Proof. unfold len. destruct l; cbn; split; (done || lia). Qed.

(** Distinct uncovered lines that are all executable lines are at most as
    many as the executable lines. *)
Lemma missing_subset_len (missing statements : list Z) :
  NoDup missing → missing ⊆ statements → len missing ≤ len statements.
Proof.
  intros Hnd Hsub. unfold len.
  apply inj_le, submseteq_length, NoDup_submseteq; assumption.
Qed.


Lemma quotient_le a b t :
  0 < b → (inject_Z a / inject_Z b <= inject_Z t)%Q ↔ a ≤ t * b.
Proof.
  intros Hb. destruct b as [|p|p]; try lia.
  unfold Qle, Qdiv, Qmult, Qinv. cbn. lia.
Qed.

Lemma quotient_ge a b t :
  0 < b → (inject_Z t <= inject_Z a / inject_Z b)%Q ↔ t * b ≤ a.
Proof.
  intros Hb. destruct b as [|p|p]; try lia.
  unfold Qle, Qdiv, Qmult, Qinv. cbn. lia.
Qed.

Lemma quotient_eq a b t :
  0 < b → (inject_Z a / inject_Z b == inject_Z t)%Q ↔ a = t * b.
Proof.
  intros Hb. destruct b as [|p|p]; try lia.
  unfold Qeq, Qdiv, Qmult, Qinv. cbn. lia.
Qed.

Lemma number_ltb_lt x y : number_ltb x y = true ↔ (to_Q x < to_Q y)%Q.
Proof.
  unfold number_ltb. rewrite negb_true_iff, <- not_true_iff_false.
  rewrite Qle_bool_iff. split; [apply Qnot_le_lt | apply Qlt_not_le].
Qed.


(** ** The percentage of one module *)

Lemma truediv_nonzero a b :
  b ≠ 0 → truediv a b = Return (Float (inject_Z a / inject_Z b)).
Proof. intros Hb. unfold truediv. by destruct (Z.eqb_spec b 0). Qed.

(** [build_module_report] raises what the analysis raises, and nothing
    else: the division is reached with a divisor other than 0 only. *)
Lemma build_module_report_returns c m a :
  analysis c m = Return a →
  build_module_report c m =
    Return (len (analysis_statements a), analysis_statements a,
            len (analysis_missing a), analysis_missing a,
            code_coverage_of a).
Proof.
  intros Ha. unfold build_module_report, code_coverage_of. rewrite Ha.
  cbn [mbind result_bind].
  destruct (Z.eqb_spec (len (analysis_statements a)) 0) as [Hzero|Hpos].
  { by rewrite decide_True. }
  rewrite decide_False by done.
  destruct (Z.eqb_spec (len (analysis_statements a)
                        - len (analysis_missing a)) 0) as [Hnone|Hsome].
  { by rewrite decide_True. }
  rewrite decide_False by done. by rewrite truediv_nonzero.
Qed.

Lemma build_module_report_raises c m e :
  analysis c m = Raise e → build_module_report c m = Raise e.
Proof. intros Ha. unfold build_module_report. by rewrite Ha. Qed.




(** C9.  When the instrumenter reports at most as many uncovered as
    executable lines, the percentage is between 0 and 100; in the order in
    which the specification takes the cases, it is exactly 100 when there
    are no executable lines, and (there being some) exactly 0 when none of
    them is covered. *)
Theorem build_module_report_bounds (c : collaborators) (m : module)
    (a : analysis_result) :
  let lines_total := len (analysis_statements a) in
  let lines_not_covered := len (analysis_missing a) in
  analysis c m = Return a →
  lines_not_covered ≤ lines_total →
  ∃ code_coverage : number,
    build_module_report c m =
      Return (lines_total, analysis_statements a,
              lines_not_covered, analysis_missing a, code_coverage)
    ∧ (0 <= to_Q code_coverage <= 100)%Q
    ∧ (lines_total = 0 → code_coverage = Int 100)
    ∧ (lines_total ≠ 0 → lines_total - lines_not_covered = 0 →
       code_coverage = Int 0).
Proof.
  intros lines_total lines_not_covered Ha Hle.
  eexists. split; [by apply build_module_report_returns|].
  unfold code_coverage_of. fold lines_total lines_not_covered.
  pose proof (len_nonneg (analysis_missing a)) as Hmissing.
  fold lines_not_covered in Hmissing.
  destruct (decide (lines_total = 0)) as [Hzero|Hpos].
  { cbn. repeat split; (done || lia). }
  destruct (decide (lines_total - lines_not_covered = 0)) as [Hnone|Hsome].
  { cbn. repeat split; (done || lia). }
  cbn [to_Q]. repeat split; try done.
  - apply (quotient_ge _ _ 0); lia.
  - apply (quotient_le _ _ 100); lia.
Qed.

Lemma build_module_report_bounds_witness :
  (len (analysis_missing (demo_analysis (module_of "pkg")))
   ≤ len (analysis_statements (demo_analysis (module_of "pkg")))
   ∧ ∃ lines not_covered,
       build_module_report demo (module_of "pkg")
       = Return (0, lines, 0, not_covered, Int 100))
  ∧ (len (analysis_missing (demo_analysis (module_of "pkg.new")))
     ≤ len (analysis_statements (demo_analysis (module_of "pkg.new")))
     ∧ ∃ lines not_covered,
         build_module_report demo (module_of "pkg.new")
         = Return (2, lines, 2, not_covered, Int 0)).
Proof.
  split; (split; [vm_compute; discriminate|]).
  - destruct (build_module_report_bounds demo (module_of "pkg")
                (demo_analysis (module_of "pkg")) eq_refl)
      as (pct & Hreport & _ & Hempty & _).
    { vm_compute. discriminate. }
    rewrite Hreport, Hempty by reflexivity. eauto.
  - destruct (build_module_report_bounds demo (module_of "pkg.new")
                (demo_analysis (module_of "pkg.new")) eq_refl)
      as (pct & Hreport & _ & _ & Hnone).
    { vm_compute. discriminate. }
    rewrite Hreport, Hnone by (vm_compute; (discriminate || reflexivity)).
    eauto.
Defined.

(** X14. With at most as many uncovered as executable lines, a module is
    reported at 100 exactly when it has no uncovered line: no rounding
    lifts a module with a missing line to 100. *)
Theorem build_module_report_full_coverage (c : collaborators) (m : module)
    (a : analysis_result) :
  analysis c m = Return a →
  len (analysis_missing a) ≤ len (analysis_statements a) →
  ∃ code_coverage : number,
    build_module_report c m =
      Return (len (analysis_statements a), analysis_statements a,
              len (analysis_missing a), analysis_missing a, code_coverage)
    ∧ ((to_Q code_coverage == 100)%Q ↔ analysis_missing a = []).
Proof.
  intros Ha Hle.
  eexists. split; [by apply build_module_report_returns|].
  rewrite <- len_nil_iff. unfold code_coverage_of.
  pose proof (len_nonneg (analysis_missing a)) as Hmissing.
  set (lines_total := len (analysis_statements a)) in *.
  set (lines_not_covered := len (analysis_missing a)) in *.
  destruct (decide (lines_total = 0)) as [Hzero|Hpos].
  { cbn. split; [lia | done]. }
  destruct (decide (lines_total - lines_not_covered = 0)) as [Hnone|Hsome].
  { cbn. split; [discriminate | lia]. }
  cbn [to_Q]. rewrite (quotient_eq _ _ 100) by lia. lia.
Qed.

Lemma build_module_report_full_coverage_witness :
  len (analysis_missing (demo_analysis (module_of "pkg.a")))
    ≤ len (analysis_statements (demo_analysis (module_of "pkg.a")))
  ∧ ∃ code_coverage,
      build_module_report demo (module_of "pkg.a")
      = Return (3, [1; 2; 3], 1, [2], code_coverage)
      ∧ ((to_Q code_coverage == 100)%Q
         ↔ analysis_missing (demo_analysis (module_of "pkg.a")) = []).
Proof.
  split; [vm_compute; discriminate|].
  apply (build_module_report_full_coverage demo (module_of "pkg.a")
           (demo_analysis (module_of "pkg.a")) eq_refl).
  vm_compute. discriminate.
Defined.

(** ** Running the monad *)

Arguments build_module_report : simpl never.

Lemma run_bind {A B} (m : M A) (f : A → M B) (w : world) :
  (m ≫= f) w =
  match m w with
  | (Return a, w') => f a w'
  | (Raise e, w') => (Raise e, w')
  end.
Proof. reflexivity. Qed.

Lemma run_ret {A} (a : A) (w : world) : (mret a : M A) w = (Return a, w).
Proof. reflexivity. Qed.

Lemma world_eta (w : world) :
  World (properties w) (sys_modules w) (trace w) = w.
Proof. by destruct w. Qed.

Lemma sumZ_app (l k : list Z) : sumZ (l ++ k) = sumZ l + sumZ k.
Proof. unfold sumZ. induction l as [|x l IH]; simpl; lia. Qed.

Ltac run :=
  repeat (rewrite ?run_bind, ?run_ret;
          unfold logger, emit, call, get_sys_modules, get_property,
                 set_property, raise, lift, test, number_of; cbn).

(** ** The loop over the discovered modules *)

(** One round: a name that is not a key of [sys.modules] is skipped with a
    warning, whatever the threshold and the exceptions are. *)
Lemma analyse_module_not_imported c a threshold exceptions limit xs name l w :
  sys_modules w !! name = None →
  analyse_module c threshold exceptions name l w =
    (Return l,
     World (properties w) (sys_modules w)
           (trace w ++ analyse_events a limit xs (sys_modules w) name)).
Proof.
  intros Hnone. unfold analyse_module, analyse_events. run.
  rewrite Hnone. run. reflexivity.
Qed.

(** One round for a loaded module whose analysis the instrumenter returns,
    with a list of exceptions and a number for a threshold. *)
Lemma analyse_module_imported c a threshold limit xs name m l w :
  sys_modules w !! name = Some m →
  analysis c m = Return (a m) →
  as_number threshold = Some limit →
  analyse_module c threshold (VList xs) name l w =
    (Return
       (Locals
          (coverage_too_low l || fails_threshold a limit xs (name, m))
          (Report (dict_module_names (report l)
                   ++ [module_report_of a (name, m)])
                  (dict_overall_coverage (report l)))
          (sum_lines l + total_lines_all_modules a xs [(name, m)])
          (sum_lines_not_covered l
           + uncovered_lines_all_modules a xs [(name, m)])
          (modules l ++ [m])),
     World (properties w) (sys_modules w)
           (trace w ++ analyse_events a limit xs (sys_modules w) name)).
Proof.
  intros Hsome Ha Hlimit.
  unfold analyse_module, analyse_events, fails_threshold, module_report_of,
    total_lines_all_modules, uncovered_lines_all_modules, counted,
    below_threshold_message.
  run. rewrite Hsome. run.
  rewrite (build_module_report_returns c m (a m) Ha). run.
  rewrite Hlimit. run.
  destruct (decide (name ∈ xs)) as [Hin|Hout].
  - rewrite (bool_decide_eq_true_2 _ Hin).
    rewrite (bool_decide_eq_false_2 (name ∉ xs))
      by (intros Hn; by apply Hn).
    rewrite decide_False by (intros Hn; by apply Hn).
    cbn. rewrite !Z.add_0_r, orb_false_r.
    destruct (number_ltb _ _); run; rewrite <- ?app_assoc; reflexivity.
  - rewrite (bool_decide_eq_false_2 _ Hout).
    rewrite (bool_decide_eq_true_2 (name ∉ xs)) by done.
    rewrite decide_True by done.
    cbn. rewrite !Z.add_0_r.
    destruct (number_ltb _ _); run;
      rewrite <- ?app_assoc, ?orb_true_r, ?orb_false_r; reflexivity.
Qed.

Lemma total_lines_app a exceptions ms1 ms2 :
  total_lines_all_modules a exceptions (ms1 ++ ms2) =
  total_lines_all_modules a exceptions ms1
  + total_lines_all_modules a exceptions ms2.
Proof.
  unfold total_lines_all_modules, counted.
  by rewrite filter_app, fmap_app, sumZ_app.
Qed.

Lemma uncovered_lines_app a exceptions ms1 ms2 :
  uncovered_lines_all_modules a exceptions (ms1 ++ ms2) =
  uncovered_lines_all_modules a exceptions ms1
  + uncovered_lines_all_modules a exceptions ms2.
Proof.
  unfold uncovered_lines_all_modules, counted.
  by rewrite filter_app, fmap_app, sumZ_app.
Qed.

Lemma total_lines_cons a exceptions p ms :
  total_lines_all_modules a exceptions (p :: ms) =
  total_lines_all_modules a exceptions [p]
  + total_lines_all_modules a exceptions ms.
Proof. apply (total_lines_app a exceptions [p] ms). Qed.

Lemma uncovered_lines_cons a exceptions p ms :
  uncovered_lines_all_modules a exceptions (p :: ms) =
  uncovered_lines_all_modules a exceptions [p]
  + uncovered_lines_all_modules a exceptions ms.
Proof. apply (uncovered_lines_app a exceptions [p] ms). Qed.

Lemma analysed_cons_imported loaded name m names :
  loaded !! name = Some m →
  analysed loaded (name :: names) = (name, m) :: analysed loaded names.
Proof. intros H. unfold analysed. cbn. by rewrite H. Qed.

Lemma analysed_cons_not_imported loaded name names :
  loaded !! name = None →
  analysed loaded (name :: names) = analysed loaded names.
Proof. intros H. unfold analysed. cbn. by rewrite H. Qed.

Lemma elem_of_analysed loaded names n m :
  (n, m) ∈ analysed loaded names ↔ n ∈ names ∧ loaded !! n = Some m.
Proof.
  unfold analysed. rewrite list_elem_of_omap. split.
  - intros (n' & Hin & Hlookup).
    destruct (loaded !! n') as [m'|] eqn:Hn'; [|done].
    cbn in Hlookup. by simplify_eq.
  - intros [Hin Hlookup]. exists n. by rewrite Hlookup.
Qed.

(** The whole loop, from any values of the local variables, when the
    exceptions are a list, the threshold is a number and the instrumenter
    returns the analysis of every module the loop comes to: it returns,
    leaves the properties and [sys.modules] alone, and adds up what the
    rounds for the analysed modules contribute. *)
Lemma analyse_loop c a threshold limit xs names : ∀ l w,
  as_number threshold = Some limit →
  analysis_is c a (analysed (sys_modules w) names) →
  for_each names (analyse_module c threshold (VList xs)) l w =
    (Return
       (Locals
          (coverage_too_low l
           || existsb (fails_threshold a limit xs)
                      (analysed (sys_modules w) names))
          (Report (dict_module_names (report l)
                   ++ (module_report_of a
                         <$> analysed (sys_modules w) names))
                  (dict_overall_coverage (report l)))
          (sum_lines l
           + total_lines_all_modules a xs (analysed (sys_modules w) names))
          (sum_lines_not_covered l
           + uncovered_lines_all_modules a xs
               (analysed (sys_modules w) names))
          (modules l ++ (analysed (sys_modules w) names).*2)),
     World (properties w) (sys_modules w)
           (trace w ++ flat_map (analyse_events a limit xs (sys_modules w))
                               names)).
Proof.
  induction names as [|name names IH]; intros l w Hlimit Ha.
  - destruct l as [flag [entries overall] total uncovered mods], w.
    cbn. by rewrite orb_false_r, !app_nil_r, !Z.add_0_r.
  - cbn [for_each]. rewrite run_bind.
    destruct (sys_modules w !! name) as [m|] eqn:Hlookup.
    + rewrite (analysed_cons_imported _ _ m) in Ha |- * by done.
      rewrite (analyse_module_imported c a threshold limit xs name m)
        by (done || (apply (Ha name m); by left)).
      rewrite IH; cbn [sys_modules properties trace coverage_too_low report
                       sum_lines sum_lines_not_covered modules
                       dict_module_names dict_overall_coverage];
        [|done|intros n' m' Hin; apply (Ha n' m'); by right].
      rewrite (total_lines_cons _ _ _ (analysed _ _)).
      rewrite (uncovered_lines_cons _ _ _ (analysed _ _)).
      cbn [existsb fmap list_fmap flat_map].
      rewrite <- !app_assoc, !Z.add_assoc, orb_assoc. reflexivity.
    + rewrite analysed_cons_not_imported in Ha |- * by done.
      rewrite (analyse_module_not_imported c a threshold (VList xs) limit xs)
        by done.
      rewrite IH by done. cbn [sys_modules properties trace flat_map].
      rewrite <- !app_assoc. reflexivity.
Qed.

Lemma total_lines_nonneg a exceptions ms :
  0 ≤ total_lines_all_modules a exceptions ms.
Proof.
  unfold total_lines_all_modules, sumZ.
  induction (counted exceptions ms) as [|p ps IH]; cbn; [done|].
  pose proof (len_nonneg (analysis_statements (a p.2))). lia.
Qed.

(** The second block of [do_coverage] under the same conditions: it
    returns, leaves the properties and [sys.modules] alone, and its local
    variables are the sums, entries and flag the specification
    describes. *)
Lemma do_coverage_analyse_run c a prefix name threshold limit xs w :
  let names := discover_modules c (expand_path c "$dir_source_main_python") in
  let ms := analysed (sys_modules w) names in
  let overall := overall_coverage_as_stated a xs ms in
  property_value (properties w) (prefix +:+ "_exceptions") = VList xs →
  as_number threshold = Some limit →
  analysis_is c a ms →
  do_coverage_analyse c prefix name threshold w =
    (Return
       (Locals
          (existsb (fails_threshold a limit xs) ms
           || number_ltb overall limit)
          (Report (module_report_of a <$> ms) (Some overall))
          (total_lines_all_modules a xs ms)
          (uncovered_lines_all_modules a xs ms)
          (ms.*2)),
     World (properties w) (sys_modules w)
           (trace w
            ++ flat_map (analyse_events a limit xs (sys_modules w)) names
            ++ [overall_event name threshold limit overall])).
Proof.
  intros names ms overall Hxs Hlimit Ha.
  unfold do_coverage_analyse, _discover_modules_to_cover. run.
  rewrite Hxs. rewrite (analyse_loop c a threshold limit xs) by done.
  cbn [coverage_too_low report sum_lines sum_lines_not_covered modules
       dict_module_names dict_overall_coverage properties sys_modules trace
       orb app].
  fold names ms. rewrite !Z.add_0_l.
  assert ((if total_lines_all_modules a xs ms =? 0
           then mret (Int 0)
           else truediv ((total_lines_all_modules a xs ms
                          - uncovered_lines_all_modules a xs ms) * 100)
                        (total_lines_all_modules a xs ms))
          = Return overall) as ->.
  { unfold overall, overall_coverage_as_stated.
    destruct (Z.eqb_spec (total_lines_all_modules a xs ms) 0).
    - by rewrite decide_True.
    - rewrite decide_False by done. by apply truediv_nonzero. }
  run. rewrite Hlimit. run. unfold overall_event.
  destruct (number_ltb overall limit); run;
    rewrite <- ?app_assoc, ?orb_true_r, ?orb_false_r; reflexivity.
Qed.

(** ** Configuration keys *)

Lemma last_char_app (s t : string) :
  t ≠ EmptyString → last_char (s +:+ t) = last_char t.
Proof.
  intros Ht. induction s as [|a s IH]; [done|].
  rewrite <- IH.
  change (last_char (String a s +:+ t))
    with (match s +:+ t with
          | EmptyString => Some a
          | String _ _ => last_char (s +:+ t)
          end).
  destruct (s +:+ t) eqn:Hst; [|done].
  destruct s; [done | discriminate Hst].
Qed.

(** No configuration key of any execution prefix is the key
    ["__running_coverage"]. *)
Lemma config_key_ne (prefix suffix : string) :
  suffix ≠ EmptyString →
  last_char suffix ≠ last_char "__running_coverage" →
  prefix +:+ suffix ≠ "__running_coverage".
Proof.
  intros Hne Hlast Heq. apply Hlast.
  rewrite <- (last_char_app prefix suffix Hne). by rewrite Heq.
Qed.

Lemma property_value_running (props : gmap string value) v prefix suffix :
  suffix ≠ EmptyString →
  last_char suffix ≠ last_char "__running_coverage" →
  property_value (<["__running_coverage" := v]> props) (prefix +:+ suffix)
  = property_value props (prefix +:+ suffix).
Proof.
  intros Hne Hlast. unfold property_value.
  rewrite lookup_insert_ne; [done|].
  intros Heq. by apply (config_key_ne prefix suffix).
Qed.

Ltac config_key :=
  rewrite ?property_value_running by (cbn; discriminate).

(** ** The first block: the task under instrumentation *)

Lemma reimport_loop c names : ∀ w,
  for_each names (λ module _,
      logger DEBUG "Reloading module %s" [VStr module] ;;
      loaded ← get_sys_modules;
      match loaded !! module with
      | Some m => reload_module c module m
      | None => mret ()
      end) () w =
    let '(r, loaded, events) := reimport_run c names (sys_modules w) in
    (r, World (properties w) loaded (trace w ++ events)).
Proof.
  induction names as [|name names IH]; intros w.
  - cbn. by rewrite app_nil_r, world_eta.
  - cbn [for_each reimport_run]. run.
    destruct (sys_modules w !! name) as [m|] eqn:Hloaded.
    + unfold reload_module. run.
      destruct (reload c m (sys_modules w)) as [[[]|e] loaded'] eqn:Hreload.
      * rewrite IH. cbn [properties sys_modules trace].
        destruct (reimport_run c names loaded') as [[r loaded''] events].
        by rewrite <- !app_assoc.
      * by rewrite <- !app_assoc.
    + run. rewrite IH. cbn [properties sys_modules trace].
      destruct (reimport_run c names (sys_modules w))
        as [[r loaded'] events].
      by rewrite <- !app_assoc.
Qed.

(** The reload loop only logs and reloads, and reloads discovered modules
    only. *)
Lemma reimport_run_events c names : ∀ loaded e,
  e ∈ (reimport_run c names loaded).2 →
  ∃ n, n ∈ names
       ∧ (e = Log DEBUG "Reloading module %s" [VStr n] ∨ e = Reload n).
Proof.
  induction names as [|name names IH]; intros loaded e; cbn.
  { by intros ?%elem_of_nil. }
  destruct (loaded !! name) as [m|].
  - destruct (reload c m loaded) as [[[]|err] loaded'].
    + specialize (IH loaded').
      destruct (reimport_run c names loaded') as [[r loaded''] events].
      cbn in *. intros [->|[->|He]%elem_of_cons]%elem_of_cons.
      * exists name. split; [by left | by left].
      * exists name. split; [by left | by right].
      * destruct (IH e He) as (n & Hn & Hcase). exists n.
        split; [by right | done].
    + cbn. intros [->|[->|He]%elem_of_cons]%elem_of_cons.
      * exists name. split; [by left | by left].
      * exists name. split; [by left | by right].
      * by apply elem_of_nil in He.
  - specialize (IH loaded).
    destruct (reimport_run c names loaded) as [[r loaded'] events].
    cbn in *. intros [->|He]%elem_of_cons.
    + exists name. split; [by left | by left].
    + destruct (IH e He) as (n & Hn & Hcase). exists n.
      split; [by right | done].
Qed.

(** The first discovered module is reloaded when it is loaded; each later
    one when it is a key of the table the reloads before it have left. *)
Lemma reimport_run_cons c name names loaded m :
  loaded !! name = Some m →
  Reload name ∈ (reimport_run c (name :: names) loaded).2
  ∧ ∀ loaded',
      reload c m loaded = (Return (), loaded') →
      (reimport_run c (name :: names) loaded).2
      = Log DEBUG "Reloading module %s" [VStr name] :: Reload name
        :: (reimport_run c names loaded').2.
Proof.
  intros Hloaded. cbn [reimport_run]. rewrite Hloaded.
  destruct (reload c m loaded) as [[[]|err] loaded''] eqn:Hreload.
  - destruct (reimport_run c names loaded'') as [[r l] events] eqn:Hrest.
    cbn. split; [by right; left|]. intros loaded' [= <-].
    by rewrite Hrest.
  - cbn. split; [by right; left|]. by intros loaded' [=].
Qed.

Lemma reimport_run_skip c name names loaded :
  loaded !! name = None →
  (reimport_run c (name :: names) loaded).2
  = Log DEBUG "Reloading module %s" [VStr name]
    :: (reimport_run c names loaded).2.
Proof.
  intros Hloaded. cbn [reimport_run]. rewrite Hloaded.
  by destruct (reimport_run c names loaded) as [[r l] events].
Qed.

Lemma _reimport_source_modules_run c prefix w :
  _reimport_source_modules c prefix w =
    if truth (property_value (properties w) (prefix +:+ "_reload_modules"))
    then
      let '(r, loaded, events) :=
        reimport_run c
          (discover_modules c (expand_path c "$dir_source_main_python"))
          (sys_modules w) in
      (r, World (properties w) loaded (trace w ++ events))
    else (Return (), w).
Proof.
  unfold _reimport_source_modules, _discover_modules_to_cover. run.
  destruct (truth _); run; [|done]. by rewrite reimport_loop.
Qed.

(** The first block raises what the task raises, leaving the properties as
    the task left them; otherwise it resets ["__running_coverage"], reloads
    and, unless a reload raises, only then stops the instrumenter. *)
Lemma do_coverage_run_run c prefix target w :
  let running := <["__running_coverage" := VBool true]> (properties w) in
  let t := task c target running (sys_modules w) in
  let started :=
    trace w ++
    [CoverageFactory
       [property_value (properties w) "dir_source_main_python"];
     CoverageErase; CoverageStart;
     SetProperty "__running_coverage" (VBool true);
     ExecuteTask target] in
  do_coverage_run c prefix target w =
    match t.1.1 with
    | Raise e => (Raise e, World t.1.2 t.2 started)
    | Return _ =>
        let r := reimport_after c prefix t.1.2 t.2 in
        (r.1.1,
         World (<["__running_coverage" := VBool false]> t.1.2) r.1.2
               (started
                ++ SetProperty "__running_coverage" (VBool false)
                   :: r.2
                ++ match r.1.1 with
                   | Return _ => [CoverageStop]
                   | Raise _ => []
                   end))
    end.
Proof.
  intros running t started.
  unfold do_coverage_run, _start_coverage, _stop_coverage, execute_task. run.
  fold running. fold t. destruct t as [[[[]|e] tprops] tloaded]; run.
  - rewrite _reimport_source_modules_run. cbn [properties sys_modules trace].
    config_key. unfold reimport_after.
    destruct (truth _).
    + destruct (reimport_run c _ tloaded) as [[[[]|e] loaded] events]; run;
        unfold started; rewrite ?app_nil_r, <- !app_assoc; reflexivity.
    + run. unfold started. rewrite <- !app_assoc. reflexivity.
  - unfold started. rewrite <- !app_assoc. reflexivity.
Qed.

(** ** The third block: reports and threshold check *)

Lemma _write_summary_report_raises c mods prefix w e :
  coverage_report c mods = Raise e →
  _write_summary_report c mods prefix w =
    (Raise e,
     World (properties w) (sys_modules w) (trace w ++ [CoverageReport mods])).
Proof. intros H. unfold _write_summary_report. run. by rewrite H. Qed.

Lemma _write_summary_report_returns c mods prefix w text :
  let outfile := expand_path c ("$dir_reports/" +:+ prefix +:+ ".xml") in
  coverage_report c mods = Return text →
  returns_or_no_data (coverage_xml_report c outfile) →
  returns_or_no_data (coverage_save c) →
  _write_summary_report c mods prefix w =
    (Return (),
     World (properties w) (sys_modules w)
           (trace w
            ++ CoverageReport mods :: CoverageXmlReport outfile
               :: match coverage_xml_report c outfile with
                  | Return _ => [CoverageSave]
                  | Raise _ => []
                  end
            ++ [WriteReport prefix (Text text)])).
Proof.
  intros outfile Hreport Hxml Hsave.
  unfold _write_summary_report, except_CoverageException. run.
  rewrite Hreport. run. fold outfile.
  destruct (coverage_xml_report c outfile) as [[]|[]]; try done; run.
  - destruct (coverage_save c) as [[]|[]]; try done; run;
      rewrite <- !app_assoc; reflexivity.
  - rewrite <- !app_assoc. reflexivity.
Qed.

(** Whatever the instrumenter answers, the summary step only adds reporting
    calls to the trace and leaves the state alone. *)
Lemma _write_summary_report_frame c mods prefix w :
  ∃ events,
    (_write_summary_report c mods prefix w).2 =
      World (properties w) (sys_modules w) (trace w ++ events)
    ∧ Forall reporting_event events.
Proof.
  unfold _write_summary_report, except_CoverageException. run.
  destruct (coverage_report c mods) as [text|e]; run.
  2: { eexists. split; [reflexivity|]. by repeat constructor. }
  destruct (coverage_xml_report c _) as [[]|[]]; run;
    try destruct (coverage_save c) as [[]|[]]; run;
    rewrite <- ?app_assoc; eexists; (split; [reflexivity|]);
    by repeat constructor.
Qed.

Lemma do_coverage_finish_frame c prefix threshold l w :
  ∃ events,
    (do_coverage_finish c prefix threshold l w).2 =
      World (properties w) (sys_modules w) (trace w ++ events)
    ∧ Forall reporting_event events.
Proof.
  unfold do_coverage_finish. run.
  destruct (_write_summary_report_frame c (modules l) prefix
              (World (properties w) (sys_modules w)
                 (trace w ++ [WriteReport (prefix +:+ ".json")
                                          (Rendered (report l))])))
    as (events & Hw & Hevents).
  destruct (_write_summary_report _ _ _ _) as [[[]|e] w'];
    cbn [snd properties sys_modules trace] in Hw; subst w'; run.
  - destruct (_ && _); run; rewrite <- app_assoc;
      (eexists; split; [reflexivity|]); by constructor.
  - rewrite <- app_assoc. eexists. split; [reflexivity|]. by constructor.
Qed.

(** When the text report is rendered and the XML report and the save at
    worst raise "no data", both reports are written and the threshold check
    decides how [do_coverage] ends. *)
Lemma do_coverage_finish_run c prefix threshold l w text :
  let outfile := expand_path c ("$dir_reports/" +:+ prefix +:+ ".xml") in
  coverage_report c (modules l) = Return text →
  returns_or_no_data (coverage_xml_report c outfile) →
  returns_or_no_data (coverage_save c) →
  do_coverage_finish c prefix threshold l w =
    (if coverage_too_low l
        && truth (property_value (properties w) (prefix +:+ "_break_build"))
     then Raise (BuildFailedException
                   "Test coverage for at least one module is below %d%%"
                   [threshold])
     else Return (),
     World (properties w) (sys_modules w)
           (trace w
            ++ WriteReport (prefix +:+ ".json") (Rendered (report l))
               :: CoverageReport (modules l) :: CoverageXmlReport outfile
               :: match coverage_xml_report c outfile with
                  | Return _ => [CoverageSave]
                  | Raise _ => []
                  end
            ++ [WriteReport prefix (Text text)])).
Proof.
  intros outfile Hreport Hxml Hsave. unfold do_coverage_finish. run.
  rewrite (_write_summary_report_returns c _ _ _ text) by done.
  run. fold outfile. rewrite <- !app_assoc.
  destruct (_ && _); reflexivity.
Qed.

(** [do_coverage] is its three blocks in sequence; the threshold is read
    once, between the first and the second. *)
Lemma do_coverage_blocks c prefix name target w w1 :
  do_coverage_run c prefix target w = (Return (), w1) →
  do_coverage c prefix name target w =
    let threshold :=
      property_value (properties w1) (prefix +:+ "_threshold_warn") in
    match do_coverage_analyse c prefix name threshold w1 with
    | (Return l, w2) => do_coverage_finish c prefix threshold l w2
    | (Raise e, w2) => (Raise e, w2)
    end.
Proof.
  intros Hrun. unfold do_coverage. rewrite run_bind, Hrun. reflexivity.
Qed.

(** Without the fork property, [run_coverage] is [do_coverage] after one
    line of log. *)
Lemma run_coverage_no_fork c prefix name target w :
  truth (property_value (properties w) (prefix +:+ "_fork")) = false →
  run_coverage c prefix name target w =
    do_coverage c prefix name target
      (World (properties w) (sys_modules w)
             (trace w ++ [Log INFO "Collecting coverage information" []])).
Proof. intros Hfork. unfold run_coverage. run. by rewrite Hfork. Qed.

Lemma do_coverage_first_block_raises c prefix name target w e w1 :
  do_coverage_run c prefix target w = (Raise e, w1) →
  do_coverage c prefix name target w = (Raise e, w1).
Proof.
  intros Hrun. unfold do_coverage. rewrite run_bind, Hrun. reflexivity.
Qed.

(** ** The claims about the figures and the flag *)

Lemma fails_threshold_exists a limit exceptions ms :
  existsb (fails_threshold a limit exceptions) ms = true ↔
  (∃ n m, (n, m) ∈ ms ∧ (n ∉ exceptions)
          ∧ (to_Q (code_coverage_of (a m)) < to_Q limit)%Q).
Proof.
  rewrite existsb_exists. unfold fails_threshold. split.
  - intros ([n m] & Hin & Hfails). exists n, m.
    apply andb_true_iff in Hfails as [Hexempt Hbelow].
    apply bool_decide_eq_true in Hexempt. apply number_ltb_lt in Hbelow.
    by rewrite list_elem_of_In.
  - intros (n & m & Hin & Hexempt & Hbelow). exists (n, m).
    split; [by rewrite <- list_elem_of_In|].
    apply andb_true_iff. split.
    + by apply bool_decide_eq_true.
    + by apply number_ltb_lt.
Qed.







(** ** Steps that only report *)

Lemma reports_only_refl w : reports_only w w.
Proof. exists []. by rewrite app_nil_r, world_eta. Qed.

Lemma reports_only_trans w1 w2 w3 :
  reports_only w1 w2 → reports_only w2 w3 → reports_only w1 w3.
Proof.
  intros (e1 & -> & H1) (e2 & -> & H2). exists (e1 ++ e2). cbn.
  rewrite app_assoc. split; [done|]. by apply Forall_app.
Qed.

Lemma reports_only_bind {A B} (m : M A) (f : A → M B) w :
  reports_only w (m w).2 →
  (∀ a w', reports_only w' (f a w').2) →
  reports_only w ((m ≫= f) w).2.
Proof.
  intros Hm Hf. rewrite run_bind. destruct (m w) as [[a|e] w']; [|done].
  by eapply reports_only_trans.
Qed.

Lemma reports_only_emit e w :
  reporting_event e → reports_only w (emit e w).2.
Proof. intros He. exists [e]. split; [done|]. by constructor. Qed.

Lemma reports_only_for_each {A L} (body : A → L → M L) xs :
  (∀ x acc w, reports_only w (body x acc w).2) →
  ∀ acc w, reports_only w (for_each xs body acc w).2.
Proof.
  intros Hbody. induction xs as [|x xs IH]; intros acc w.
  - apply reports_only_refl.
  - cbn [for_each]. apply reports_only_bind; [apply Hbody|].
    intros acc' w'. apply IH.
Qed.

Ltac reports_only :=
  repeat first
    [ apply reports_only_refl
    | apply reports_only_emit; exact I
    | apply reports_only_bind; [|intros ? ?]
    | progress unfold logger
    | match goal with
      | |- context [match ?x with _ => _ end] => destruct x
      | |- context [if ?x then _ else _] => destruct x
      end ].

Lemma analyse_module_reports_only c threshold exceptions name l w :
  reports_only w (analyse_module c threshold exceptions name l w).2.
Proof. unfold analyse_module, test, number_of. reports_only. Qed.

Lemma do_coverage_analyse_reports_only c prefix name threshold w :
  reports_only w (do_coverage_analyse c prefix name threshold w).2.
Proof.
  unfold do_coverage_analyse, _discover_modules_to_cover, number_of.
  apply reports_only_bind; [apply reports_only_refl|]. intros exceptions w1.
  apply reports_only_bind; [apply reports_only_refl|]. intros names w2.
  apply reports_only_bind.
  { apply reports_only_for_each. intros x acc w'.
    apply analyse_module_reports_only. }
  intros l w3. reports_only.
Qed.

Lemma do_coverage_finish_reports_only c prefix threshold l w :
  reports_only w (do_coverage_finish c prefix threshold l w).2.
Proof. apply do_coverage_finish_frame. Qed.

(** What follows the first block only reports, however it ends. *)
Lemma do_coverage_rest_reports_only c prefix name target w w1 :
  do_coverage_run c prefix target w = (Return (), w1) →
  reports_only w1 (do_coverage c prefix name target w).2.
Proof.
  intros Hrun. rewrite (do_coverage_blocks _ _ _ _ _ _ Hrun). cbv zeta.
  pose proof (do_coverage_analyse_reports_only c prefix name
                (property_value (properties w1) (prefix +:+ "_threshold_warn"))
                w1) as Hanalyse.
  destruct (do_coverage_analyse _ _ _ _ w1) as [[l|e] w2]; [|done].
  eapply reports_only_trans; [exact Hanalyse|].
  apply do_coverage_finish_reports_only.
Qed.

(** ** The order of the calls *)

Lemma do_coverage_trace c prefix name target w u :
  let running := <["__running_coverage" := VBool true]> (properties w) in
  let t := task c target running (sys_modules w) in
  let r := reimport_after c prefix t.1.2 t.2 in
  let out := do_coverage c prefix name target w in
  t.1.1 = Return u →
  ∃ rest,
    out.2 =
      World (<["__running_coverage" := VBool false]> t.1.2) r.1.2
            (trace w ++
             [CoverageFactory
                [property_value (properties w) "dir_source_main_python"];
              CoverageErase; CoverageStart;
              SetProperty "__running_coverage" (VBool true);
              ExecuteTask target;
              SetProperty "__running_coverage" (VBool false)]
             ++ r.2 ++ rest)
    ∧ (r.1.1 = Return () →
       ∃ reporting,
         rest = CoverageStop :: reporting ∧ Forall reporting_event reporting)
    ∧ (∀ e, r.1.1 = Raise e → rest = [] ∧ out.1 = Raise e).
Proof.
  intros running t r out Htask.
  pose proof (do_coverage_run_run c prefix target w) as Hrun.
  cbv zeta in Hrun. fold running in Hrun. fold t in Hrun.
  rewrite Htask in Hrun. fold r in Hrun. unfold out.
  destruct (r.1.1) as [[]|e] eqn:Hreload.
  - destruct (do_coverage_rest_reports_only c prefix name target w _ Hrun)
      as (reporting & -> & Hreporting).
    exists (CoverageStop :: reporting). cbn [properties sys_modules trace].
    split; [|split; [eauto | done]].
    f_equal. rewrite <- !app_assoc. cbn [app]. do 7 f_equal.
    by rewrite <- app_assoc.
  - rewrite (do_coverage_first_block_raises _ _ name _ _ _ _ Hrun).
    exists []. split; [|split; [done|]].
    + cbn [snd]. f_equal. rewrite <- !app_assoc. reflexivity.
    + intros e' [= <-]. done.
Qed.

(** C10. [do_coverage] sets ["__running_coverage"] right before it calls
    the task, which therefore sees it set, and resets it right after the
    task has returned; nothing later writes a property or runs a task, so
    the property is [False] whenever [do_coverage] returns.  (A task that
    raises ends [do_coverage] at once, with the properties as the task left
    them.) *)
Theorem running_coverage_window c prefix name target w :
  let running := <["__running_coverage" := VBool true]> (properties w) in
  let t := task c target running (sys_modules w) in
  let out := do_coverage c prefix name target w in
  let started :=
    [CoverageFactory
       [property_value (properties w) "dir_source_main_python"];
     CoverageErase; CoverageStart;
     SetProperty "__running_coverage" (VBool true);
     ExecuteTask target] in
  running !! "__running_coverage" = Some (VBool true)
  ∧ (t.1.1 = Return () →
     ∃ rest,
       trace out.2 =
         trace w ++ started
         ++ SetProperty "__running_coverage" (VBool false) :: rest
       ∧ (∀ key v, SetProperty key v ∉ rest)
       ∧ (∀ task', ExecuteTask task' ∉ rest)
       ∧ properties out.2
         = <["__running_coverage" := VBool false]> t.1.2
       ∧ properties out.2 !! "__running_coverage" = Some (VBool false))
  ∧ (∀ e, t.1.1 = Raise e →
     out = (Raise e, World t.1.2 t.2 (trace w ++ started)))
  ∧ (out.1 = Return () →
     properties out.2 !! "__running_coverage" = Some (VBool false)).
Proof.
  intros running t out started.
  assert (t.1.1 = Return () →
          ∃ rest,
            trace out.2 =
              trace w ++ started
              ++ SetProperty "__running_coverage" (VBool false) :: rest
            ∧ (∀ key v, SetProperty key v ∉ rest)
            ∧ (∀ task', ExecuteTask task' ∉ rest)
            ∧ properties out.2
              = <["__running_coverage" := VBool false]> t.1.2
            ∧ properties out.2 !! "__running_coverage" = Some (VBool false))
    as Hreturns.
  { intros Htask.
    destruct (do_coverage_trace c prefix name target w () Htask)
      as (rest & Hout & Hstopped & Hraised).
    fold running t out in Hout, Hstopped, Hraised.
    set (r := reimport_after c prefix t.1.2 t.2) in *.
    assert (∀ e, e ∈ r.2 ++ rest →
                 match e with
                 | SetProperty _ _ | ExecuteTask _ => False
                 | _ => True
                 end) as Hrest.
    { intros e [He|He]%elem_of_app.
      - unfold r, reimport_after in He.
        destruct (truth _); [|by apply elem_of_nil in He].
        apply reimport_run_events in He as (n & _ & [->| ->]); done.
      - destruct (r.1.1) as [[]|e'].
        + destruct Hstopped as (reporting & -> & Hreporting); [done|].
          apply elem_of_cons in He as [->|He]; [done|].
          rewrite Forall_forall in Hreporting.
          specialize (Hreporting e He). by destruct e.
        + destruct (Hraised e') as [-> _]; [done|].
          by apply elem_of_nil in He. }
    exists (r.2 ++ rest). rewrite Hout. cbn [properties trace].
    split; [|split; [|split; [|split]]].
    - unfold started. rewrite <- ?app_assoc. reflexivity.
    - intros key v Hin. apply (Hrest _ Hin).
    - intros task' Hin. apply (Hrest _ Hin).
    - reflexivity.
    - apply lookup_insert_eq. }
  split; [apply lookup_insert_eq|]. split; [done|]. split.
  - intros e Htask. unfold out.
    pose proof (do_coverage_run_run c prefix target w) as Hrun.
    cbv zeta in Hrun. fold running in Hrun. fold t in Hrun.
    rewrite Htask in Hrun. by apply do_coverage_first_block_raises.
  - intros Hout. destruct (t.1.1) as [[]|e] eqn:Htask.
    + destruct Hreturns as (rest & _ & _ & _ & _ & Hprop); done.
    + unfold out in Hout.
      pose proof (do_coverage_run_run c prefix target w) as Hrun.
      cbv zeta in Hrun. fold running in Hrun. fold t in Hrun.
      rewrite Htask in Hrun.
      rewrite (do_coverage_first_block_raises _ _ name _ _ _ _ Hrun) in Hout.
      discriminate Hout.
Qed.

(** C2, counterexample.  In the run of the concrete project the first
    reload, of [pkg], comes while the instrumenter still runs: no call
    before it stops the instrumenter. *)
Lemma reload_precedes_stop_in_demo :
  ¬ reload_step_as_stated true
      (trace (do_coverage demo "coverage" "coverage" "run_unit_tests"
                          demo_world).2).
Proof.
  intros H.
  set (events := trace (do_coverage demo "coverage" "coverage"
                                    "run_unit_tests" demo_world).2) in H.
  destruct (H (take 13 events) "pkg" (drop 14 events)) as [Hstop _].
  { vm_compute. reflexivity. }
  vm_compute in Hstop.
  repeat (apply elem_of_cons in Hstop as [Hstop|Hstop];
          [discriminate Hstop|]).
  by apply elem_of_nil in Hstop.
Qed.

(** C2, as amended.  When the task has returned, the reload step comes
    right after the reset of ["__running_coverage"] and before the
    instrumenter is stopped, hence before any analysis is requested.  Its
    calls are those of [reimport_run] on the table the task left: with the
    flag set (as the task left it), one debug line for each discovered
    name, in order, and a reload for each name that is a key of
    [sys.modules] at its turn, no other; with the flag unset, none.  When
    every reload returns, the instrumenter is stopped next and only
    reporting calls follow; when a reload raises, the step ends there,
    [do_coverage] raises the same exception and the instrumenter is never
    stopped. *)
Theorem reload_before_stop c prefix name target w u :
  let running := <["__running_coverage" := VBool true]> (properties w) in
  let t := task c target running (sys_modules w) in
  let names := discover_modules c (expand_path c "$dir_source_main_python") in
  let reload_modules :=
    truth (property_value t.1.2 (prefix +:+ "_reload_modules")) in
  let r := if reload_modules then reimport_run c names t.2
           else (Return (), t.2, []) in
  let out := do_coverage c prefix name target w in
  t.1.1 = Return u →
  ∃ rest,
    trace out.2 =
      trace w ++
      [CoverageFactory
         [property_value (properties w) "dir_source_main_python"];
       CoverageErase; CoverageStart;
       SetProperty "__running_coverage" (VBool true);
       ExecuteTask target;
       SetProperty "__running_coverage" (VBool false)]
      ++ r.2 ++ rest
    ∧ sys_modules out.2 = r.1.2
    ∧ (∀ e, e ∈ r.2 →
       ∃ n, n ∈ names
            ∧ (e = Log DEBUG "Reloading module %s" [VStr n] ∨ e = Reload n))
    ∧ (∀ n names' m,
         reload_modules = true → names = n :: names' → t.2 !! n = Some m →
         Reload n ∈ r.2)
    ∧ (reload_modules = false → r.2 = [])
    ∧ (r.1.1 = Return () →
       ∃ reporting,
         rest = CoverageStop :: reporting ∧ Forall reporting_event reporting)
    ∧ (∀ e, r.1.1 = Raise e →
       rest = [] ∧ out.1 = Raise e ∧ CoverageStop ∉ r.2 ++ rest).
Proof.
  intros running t names reload_modules r out Htask.
  destruct (do_coverage_trace c prefix name target w u Htask)
    as (rest & Hout & Hstopped & Hraised).
  change (reimport_after c prefix t.1.2 t.2) with r in Hout, Hstopped, Hraised.
  fold out in Hout, Hraised.
  assert (∀ e, e ∈ r.2 →
            ∃ n, n ∈ names
                 ∧ (e = Log DEBUG "Reloading module %s" [VStr n]
                    ∨ e = Reload n)) as Hevents.
  { intros e He. unfold r in He.
    destruct reload_modules; [|by apply elem_of_nil in He].
    by apply reimport_run_events in He. }
  exists rest. rewrite Hout. cbn [trace sys_modules].
  split; [done|]. split; [done|]. split; [done|].
  split; [|split; [|split]].
  - intros n names' m Hflag Hnames Hloaded. unfold r.
    rewrite Hflag, Hnames. by apply (reimport_run_cons c n names' t.2 m).
  - unfold r. by intros ->.
  - done.
  - intros e He. destruct (Hraised e He) as [-> Hraise].
    split; [done|]. split; [done|]. rewrite app_nil_r.
    intros (n & _ & [?|?])%Hevents; discriminate.
Qed.

Lemma reload_before_stop_witness :
  let t := task demo "run_unit_tests"
             (<["__running_coverage" := VBool true]> (properties demo_world))
             (sys_modules demo_world) in
  let reloads :=
    (reimport_run demo
       (discover_modules demo (expand_path demo "$dir_source_main_python"))
       t.2).2 in
  t.1.1 = Return ()
  ∧ ∃ rest,
      trace (do_coverage demo "coverage" "coverage" "run_unit_tests"
                         demo_world).2 =
        trace demo_world ++
        [CoverageFactory
           [property_value (properties demo_world)
                           "dir_source_main_python"];
         CoverageErase; CoverageStart;
         SetProperty "__running_coverage" (VBool true);
         ExecuteTask "run_unit_tests";
         SetProperty "__running_coverage" (VBool false)]
        ++ reloads ++ rest
      ∧ Reload "pkg.b" ∈ reloads
      ∧ (Reload "pkg.gone" ∉ reloads)
      ∧ ∃ reporting, rest = CoverageStop :: reporting.
Proof.
  intros t reloads. split; [reflexivity|].
  destruct (reload_before_stop demo "coverage" "coverage" "run_unit_tests"
              demo_world ())
    as (rest & Htrace & _ & _ & _ & _ & Hstopped & _); [reflexivity|].
  exists rest. split; [exact Htrace|]. split; [|split].
  - vm_compute. by repeat constructor.
  - intros Hgone. vm_compute in Hgone.
    repeat (apply elem_of_cons in Hgone as [Hgone|Hgone];
            [discriminate Hgone|]).
    by apply elem_of_nil in Hgone.
  - destruct Hstopped as (reporting & -> & _); [reflexivity|]. eauto.
Defined.

(** ** How a run ends *)

Lemma _write_summary_report_returned c mods prefix w w' :
  _write_summary_report c mods prefix w = (Return (), w') →
  ∃ text calls,
    coverage_report c mods = Return text
    ∧ w' = World (properties w) (sys_modules w)
                 (trace w ++ CoverageReport mods
                             :: calls ++ [WriteReport prefix (Text text)])
    ∧ Forall reporting_event calls.
Proof.
  unfold _write_summary_report, except_CoverageException. run.
  destruct (coverage_report c mods) as [text|e]; run; [|discriminate].
  destruct (coverage_xml_report c _) as [[]|[]]; run;
    try destruct (coverage_save c) as [[]|[]]; run;
    try discriminate; intros [= <-]; exists text;
    first [ exists [CoverageXmlReport
                      (expand_path c ("$dir_reports/" +:+ prefix +:+ ".xml"));
                    CoverageSave];
            split; [reflexivity|];
            split; [by rewrite <- ?app_assoc | by repeat constructor]
          | exists [CoverageXmlReport
                      (expand_path c ("$dir_reports/" +:+ prefix +:+ ".xml"))];
            split; [reflexivity|];
            split; [by rewrite <- ?app_assoc | by repeat constructor] ].
Qed.

Lemma do_coverage_finish_returned c prefix threshold l w w' :
  _write_summary_report c (modules l) prefix
    (World (properties w) (sys_modules w)
           (trace w ++ [WriteReport (prefix +:+ ".json")
                                    (Rendered (report l))]))
  = (Return (), w') →
  do_coverage_finish c prefix threshold l w =
    (if coverage_too_low l
        && truth (property_value (properties w) (prefix +:+ "_break_build"))
     then Raise (BuildFailedException
                   "Test coverage for at least one module is below %d%%"
                   [threshold])
     else Return (), w').
Proof.
  intros Hsummary. unfold do_coverage_finish. run. rewrite Hsummary.
  apply _write_summary_report_returned in Hsummary
    as (text & calls & _ & -> & _).
  run. by destruct (_ && _).
Qed.

(** C3, counterexample.  The build failure of a failing test task leaves
    [do_coverage] before any flag is computed; and with the flag set and
    break-build true, an exception of the XML report that is not the
    instrumenter's leaves [do_coverage] in place of the build failure. *)
Lemma build_failure_not_iff_flag :
  ¬ build_failure_as_stated demo_failing_tests "coverage" "coverage"
      "run_unit_tests" demo_world
  ∧ ¬ build_failure_as_stated demo_xml_fails "coverage" "coverage"
        "run_unit_tests" demo_world.
Proof.
  split.
  - intros [Hflag _]. destruct Hflag as (w1 & l & w2 & Hrun & _).
    + eexists _, _. vm_compute. reflexivity.
    + vm_compute in Hrun. discriminate Hrun.
  - intros [_ Hraises].
    set (first_block := do_coverage_run demo_xml_fails "coverage"
                          "run_unit_tests" demo_world).
    set (loop_block :=
           do_coverage_analyse demo_xml_fails "coverage" "coverage"
             (property_value (properties first_block.2)
                             "coverage_threshold_warn") first_block.2).
    destruct Hraises as (message & arguments & Hout).
    + exists first_block.2.
      destruct loop_block as [[l|e] w2] eqn:Hloop;
        [|vm_compute in Hloop; discriminate Hloop].
      exists l, w2. split; [vm_compute; reflexivity|].
      split; [exact Hloop|].
      vm_compute in Hloop. injection Hloop as <- <-.
      split; vm_compute; reflexivity.
    + vm_compute in Hout. discriminate Hout.
Qed.

(** C3, as amended.  Take a run of [do_coverage] (no fork) in which the
    first block (task, reloads, stop), the loop block and the summary step
    return.  It raises [BuildFailedException] exactly when the flag the
    loop block left is set and the break-build property is true; it raises
    nothing else, the exception carries the configured threshold, and it
    comes after both reports were written: the trace ends with the call
    that writes the text summary, and the call that writes the structured
    report precedes it. *)
Theorem do_coverage_build_failure c prefix name target w w1 l w2 w3 :
  let threshold :=
    property_value (properties w1) (prefix +:+ "_threshold_warn") in
  let break_build :=
    truth (property_value (properties w1) (prefix +:+ "_break_build")) in
  let out := do_coverage c prefix name target w in
  do_coverage_run c prefix target w = (Return (), w1) →
  do_coverage_analyse c prefix name threshold w1 = (Return l, w2) →
  _write_summary_report c (modules l) prefix
    (World (properties w2) (sys_modules w2)
           (trace w2 ++ [WriteReport (prefix +:+ ".json")
                                     (Rendered (report l))]))
  = (Return (), w3) →
  ((∃ message arguments,
      out.1 = Raise (BuildFailedException message arguments))
   ↔ coverage_too_low l = true ∧ break_build = true)
  ∧ (∀ e, out.1 = Raise e →
       e = BuildFailedException
             "Test coverage for at least one module is below %d%%"
             [threshold])
  ∧ out.2 = w3
  ∧ (∃ calls text,
       trace w3 =
         trace w2
         ++ WriteReport (prefix +:+ ".json") (Rendered (report l))
            :: calls ++ [WriteReport prefix (Text text)]
       ∧ Forall reporting_event calls).
Proof.
  intros threshold break_build out Hrun Hanalyse Hsummary.
  pose proof (do_coverage_blocks _ _ name _ _ _ Hrun) as Hout.
  cbv zeta in Hout. fold threshold in Hout. rewrite Hanalyse in Hout.
  rewrite (do_coverage_finish_returned _ _ _ _ _ _ Hsummary) in Hout.
  destruct (do_coverage_analyse_reports_only c prefix name threshold w1)
    as (events & Hw2 & _).
  rewrite Hanalyse in Hw2. cbn [snd] in Hw2.
  assert (properties w2 = properties w1) as Hprops by by rewrite Hw2.
  rewrite Hprops in Hout. fold break_build out in Hout. rewrite Hout.
  cbn [fst snd]. split; [|split; [|split]].
  - destruct (_ && break_build) eqn:Hcheck.
    + apply andb_true_iff in Hcheck. split; [intros _; exact Hcheck|].
      intros _. eauto.
    + split; [by intros (? & ? & ?)|].
      intros [Hlow Hbreak]. by rewrite Hlow, Hbreak in Hcheck.
  - intros e. destruct (_ && break_build); by intros [= <-].
  - reflexivity.
  - apply _write_summary_report_returned in Hsummary
      as (text & calls & _ & -> & Hcalls).
    exists (CoverageReport (modules l) :: calls), text. cbn [trace].
    split; [by rewrite <- app_assoc | by constructor].
Qed.

Lemma do_coverage_build_failure_witness :
  let first_block :=
    do_coverage_run demo "coverage" "run_unit_tests" demo_world in
  let loop_block :=
    do_coverage_analyse demo "coverage" "coverage" (VInt 70)
                        first_block.2 in
  first_block.1 = Return ()
  ∧ coverage_too_low
      (match loop_block.1 with
       | Return l => l
       | Raise _ => Locals false (Report [] None) 0 0 []
       end) = true
  ∧ ∃ message,
      (do_coverage demo "coverage" "coverage" "run_unit_tests"
                   demo_world).1 =
        Raise (BuildFailedException message [VInt 70]).
Proof.
  intros first_block loop_block.
  split; [reflexivity|]. split; [vm_compute; reflexivity|].
  destruct loop_block as [[l|e] w2] eqn:Hloop;
    [|vm_compute in Hloop; discriminate Hloop].
  destruct (_write_summary_report demo (modules l) "coverage"
              (World (properties w2) (sys_modules w2)
                     (trace w2 ++ [WriteReport "coverage.json"
                                               (Rendered (report l))])))
    as [[[]|e] w3] eqn:Hsummary;
    [|vm_compute in Hloop; injection Hloop as <- <-;
      vm_compute in Hsummary; discriminate Hsummary].
  destruct (do_coverage_build_failure demo "coverage" "coverage"
              "run_unit_tests" demo_world first_block.2 l w2 w3)
    as ([_ Hraises] & Hcarries & _).
  { vm_compute. reflexivity. }
  { exact Hloop. }
  { exact Hsummary. }
  destruct Hraises as (message & arguments & Hout).
  { vm_compute in Hloop. injection Hloop as <- <-. split; reflexivity. }
  specialize (Hcarries _ Hout). injection Hcarries as -> ->.
  eexists. exact Hout.
Defined.

(** C7.  In fork mode the parent starts one child process, waits for it
    and looks at its exit code only: a code other than 0 with break-build
    true raises [BuildFailedException] with a message that names the code,
    a code of 0 raises nothing whatever break-build is, and the parent's
    own state is as it was. *)
Theorem run_coverage_fork c prefix name target w :
  let child :=
    do_coverage c prefix name target
                (World (properties w) (sys_modules w) []) in
  let exitcode := process_exitcode c child.1 in
  let break_build :=
    truth (property_value (properties w) (prefix +:+ "_break_build")) in
  let out := run_coverage c prefix name target w in
  truth (property_value (properties w) (prefix +:+ "_fork")) = true →
  (exitcode ≠ 0 → break_build = true →
   out.1 = Raise (BuildFailedException
                    ("Forked " +:+ name
                     +:+ " process indicated failure with error code "
                     +:+ fmt_d exitcode) []))
  ∧ (exitcode = 0 → out.1 = Return ())
  ∧ (break_build = false → out.1 = Return ())
  ∧ out.2 =
      World (properties w) (sys_modules w)
            (trace w ++
             [Log INFO "Collecting coverage information" [];
              Log DEBUG "Forking process to do %s analysis" [VStr name];
              ProcessRun (trace child.2) exitcode]).
Proof.
  intros child exitcode break_build out Hfork.
  assert (out =
          (if negb (exitcode =? 0) && break_build
           then Raise (BuildFailedException
                         ("Forked " +:+ name
                          +:+ " process indicated failure with error code "
                          +:+ fmt_d exitcode) [])
           else Return (),
           World (properties w) (sys_modules w)
                 (trace w ++
                  [Log INFO "Collecting coverage information" [];
                   Log DEBUG "Forking process to do %s analysis" [VStr name];
                   ProcessRun (trace child.2) exitcode])))
    as ->.
  { unfold out, run_coverage, start_and_join. run. rewrite Hfork. run.
    fold child. destruct child as [r child_world] eqn:Hchild.
    run. fold exitcode break_build. rewrite <- !app_assoc.
    by destruct (_ && _). }
  cbn [fst snd]. split; [|split; [|split]]; [| | |done].
  - intros Hcode ->. by destruct (Z.eqb_spec exitcode 0).
  - by intros ->.
  - intros ->. by rewrite andb_false_r.
Qed.

Lemma run_coverage_fork_witness :
  truth (property_value (properties demo_world_fork) "coverage_fork") = true
  ∧ (run_coverage demo "coverage" "coverage" "run_unit_tests"
                  demo_world_fork).1 =
      Raise (BuildFailedException
               "Forked coverage process indicated failure with error code 1"
               []).
Proof.
  split; [reflexivity|].
  destruct (run_coverage_fork demo "coverage" "coverage" "run_unit_tests"
              demo_world_fork) as (Hfails & _).
  { reflexivity. }
  rewrite Hfails.
  - vm_compute. reflexivity.
  - vm_compute. discriminate.
  - vm_compute. reflexivity.
Defined.

(** * Further properties of the plugin *)

(** ** The figures *)

(** C8.  The text report is the first call of the summary step and sits
    outside the [try]: when the instrumenter raises its "no data" exception
    from it, nothing catches the exception.  The step raises it after that
    one call, the text summary is not written, and [do_coverage_finish]
    raises it too, whatever the flag and break-build are: the threshold
    check is not reached, and a run of [do_coverage] whose loop block
    returned ends with that exception. *)
Theorem summary_no_data_from_text_report_escapes c prefix threshold l w
    message :
  coverage_report c (modules l) = Raise (CoverageException message) →
  _write_summary_report c (modules l) prefix w =
    (Raise (CoverageException message),
     World (properties w) (sys_modules w)
           (trace w ++ [CoverageReport (modules l)]))
  ∧ do_coverage_finish c prefix threshold l w =
      (Raise (CoverageException message),
       World (properties w) (sys_modules w)
             (trace w ++
              [WriteReport (prefix +:+ ".json") (Rendered (report l));
               CoverageReport (modules l)]))
  ∧ (∀ name target w0 w1,
       do_coverage_run c prefix target w0 = (Return (), w1) →
       threshold
       = property_value (properties w1) (prefix +:+ "_threshold_warn") →
       do_coverage_analyse c prefix name threshold w1 = (Return l, w) →
       (do_coverage c prefix name target w0).1
       = Raise (CoverageException message)).
Proof.
  intros Hreport.
  assert (do_coverage_finish c prefix threshold l w =
            (Raise (CoverageException message),
             World (properties w) (sys_modules w)
                   (trace w ++
                    [WriteReport (prefix +:+ ".json") (Rendered (report l));
                     CoverageReport (modules l)]))) as Hfinish.
  { unfold do_coverage_finish. run.
    rewrite (_write_summary_report_raises c _ _ _ _ Hreport).
    cbn [properties sys_modules trace]. by rewrite <- app_assoc. }
  split; [by apply _write_summary_report_raises|]. split; [done|].
  intros name target w0 w1 Hrun Hthreshold Hanalyse.
  rewrite (do_coverage_blocks _ _ name _ _ _ Hrun). cbv zeta.
  by rewrite <- Hthreshold, Hanalyse, Hfinish.
Qed.

Lemma summary_no_data_from_text_report_escapes_witness :
  coverage_report demo_no_data [module_of "pkg"]
  = Raise (CoverageException "No data to report.")
  ∧ (do_coverage_finish demo_no_data "coverage" (VInt 70)
       (Locals false (Report [] None) 0 0 [module_of "pkg"]) demo_world).1
    = Raise (CoverageException "No data to report.")
  ∧ (do_coverage demo_no_data "coverage" "coverage" "run_unit_tests"
                 demo_world).1
    = Raise (CoverageException "No data to report.").
Proof.
  split; [reflexivity|]. split; [|vm_compute; reflexivity].
  destruct (summary_no_data_from_text_report_escapes demo_no_data "coverage"
              (VInt 70) (Locals false (Report [] None) 0 0 [module_of "pkg"])
              demo_world "No data to report.") as (_ & Hfinish & _);
    [reflexivity|].
  by rewrite Hfinish.
Defined.

(** * Further properties of the plugin *)

(** ** The defaults *)

Lemma set_property_if_unset_run key v w :
  set_property_if_unset key v w =
    (Return (),
     World (properties w ∪ {[key := v]}) (sys_modules w)
           (trace w ++ match properties w !! key with
                       | Some _ => []
                       | None => [SetProperty key v]
                       end)).
Proof.
  unfold set_property_if_unset, set_property.
  destruct (properties w !! key) as [old|] eqn:Hkey.
  - rewrite app_nil_r. f_equal. rewrite <- (world_eta w) at 1. f_equal.
    apply map_eq. intros i. rewrite lookup_union.
    destruct (decide (i = key)) as [->|Hne].
    + by rewrite Hkey, lookup_singleton_eq.
    + rewrite lookup_singleton_ne by done. by destruct (properties w !! i).
  - by rewrite insert_union_singleton_r.
Qed.

Lemma init_coverage_properties_run w :
  init_coverage_properties w =
    (Return (),
     World (properties w ∪ list_to_map coverage_defaults) (sys_modules w)
           (trace w ++ BuildDependsOn "coverage"
              :: ((λ kv, SetProperty kv.1 kv.2)
                    <$> filter (λ kv, properties w !! kv.1 = None)
                               coverage_defaults))).
Proof.
  unfold init_coverage_properties. rewrite run_bind. unfold emit.
  cbv beta iota. cbn [properties sys_modules trace].
  repeat (rewrite run_bind, set_property_if_unset_run; cbv beta iota;
          cbn [properties sys_modules trace]).
  rewrite set_property_if_unset_run. cbn [properties sys_modules trace].
  f_equal. f_equal.
  - unfold coverage_defaults. cbn [list_to_map foldr fst snd uncurry].
    rewrite !insert_union_singleton_l, (right_id_L ∅ (∪)).
    by rewrite <- !(assoc_L (∪)).
  - rewrite <- !app_assoc. f_equal. cbn [app]. f_equal.
    rewrite !lookup_union, !lookup_singleton_ne by done.
    unfold coverage_defaults. rewrite !filter_cons, filter_nil. cbn [fst].
    repeat match goal with
           | |- context [properties w !! ?k] =>
               destruct (properties w !! k) eqn:?
           end;
      repeat first [rewrite decide_True by done
                   |rewrite decide_False by done];
      done.
Qed.

Lemma coverage_defaults_lookup key v :
  (key, v) ∈ coverage_defaults →
  (list_to_map coverage_defaults : gmap string value) !! key = Some v.
Proof.
  intros Hin. apply elem_of_list_to_map; [|done].
  apply (bool_decide_unpack _). vm_compute. exact I.
Qed.

(** X1. [init_coverage_properties] gives each of the five settings its
    default (threshold 70, break-build and reload on, no exceptions, no
    fork) only where the project has no value yet: every property that was
    set keeps its value, and afterwards all five settings have one. *)
Theorem init_coverage_properties_defaults w :
  let out := init_coverage_properties w in
  out.1 = Return ()
  ∧ sys_modules out.2 = sys_modules w
  ∧ (∀ key v, properties w !! key = Some v →
              properties out.2 !! key = Some v)
  ∧ (∀ key v, (key, v) ∈ coverage_defaults →
              properties w !! key = None →
              properties out.2 !! key = Some v)
  ∧ (∀ key, properties out.2 !! key = None →
            properties w !! key = None
            ∧ ∀ v, (key, v) ∉ coverage_defaults).
Proof.
  intros out. unfold out. rewrite init_coverage_properties_run.
  cbn [fst snd properties sys_modules].
  split; [done|]. split; [done|].
  pose proof coverage_defaults_lookup as Hdefault.
  split; [|split].
  - intros key v Hkey. by rewrite lookup_union, Hkey, union_Some_l.
  - intros key v Hin Hkey.
    by rewrite lookup_union, Hkey, (Hdefault key v Hin).
  - intros key Hnone. apply lookup_union_None in Hnone as [Hw Hd].
    split; [done|]. intros v Hin. by rewrite (Hdefault key v Hin) in Hd.
Qed.

(** X15. [init_coverage_properties] is idempotent on the properties: a
    second call writes none, its only call being the dependency
    declaration. *)
Theorem init_coverage_properties_twice w :
  let once := (init_coverage_properties w).2 in
  init_coverage_properties once =
    (Return (),
     World (properties once) (sys_modules once)
           (trace once ++ [BuildDependsOn "coverage"])).
Proof.
  intros once. unfold once.
  rewrite (init_coverage_properties_run
             (init_coverage_properties w).2).
  rewrite init_coverage_properties_run.
  cbn [snd properties sys_modules trace].
  f_equal. f_equal.
  - by rewrite <- (assoc_L (∪)), (idemp_L (∪)).
  - f_equal. f_equal.
    assert (filter
              (λ kv : string * value,
                 (properties w ∪ list_to_map coverage_defaults) !! kv.1
                 = None)
              coverage_defaults = []) as ->; [|done].
    apply elem_of_nil_inv. intros [key v] Hin.
    apply list_elem_of_filter in Hin as [Hnone Hin]. cbn [fst] in Hnone.
    apply lookup_union_None in Hnone as [_ Hd].
    by rewrite (coverage_defaults_lookup key v Hin) in Hd.
Qed.

(** ** The summary step *)

(** X7. When the XML report raises the instrumenter's "no data" exception,
    [coverage.save] is not called at all: the exception leaves the [try]
    before it; the text summary is written all the same. *)
Theorem xml_no_data_skips_save c mods prefix w text message :
  let outfile := expand_path c ("$dir_reports/" +:+ prefix +:+ ".xml") in
  coverage_report c mods = Return text →
  coverage_xml_report c outfile = Raise (CoverageException message) →
  _write_summary_report c mods prefix w =
    (Return (),
     World (properties w) (sys_modules w)
           (trace w ++ [CoverageReport mods; CoverageXmlReport outfile;
                        WriteReport prefix (Text text)])).
Proof.
  intros outfile Hreport Hxml.
  unfold _write_summary_report, except_CoverageException. run.
  rewrite Hreport. run. fold outfile. rewrite Hxml. run.
  rewrite <- !app_assoc. reflexivity.
Qed.

Lemma xml_no_data_skips_save_witness :
  coverage_xml_report demo (expand_path demo "$dir_reports/coverage.xml")
  = Raise (CoverageException "No data to report.")
  ∧ _write_summary_report demo [module_of "pkg"] "coverage" demo_world =
      (Return (),
       World (properties demo_world) (sys_modules demo_world)
             (trace demo_world ++
              [CoverageReport [module_of "pkg"];
               CoverageXmlReport
                 (expand_path demo ("$dir_reports/" +:+ "coverage"
                                    +:+ ".xml"));
               WriteReport "coverage" (Text "Name  Stmts  Miss  Cover")])).
Proof.
  split; [reflexivity|].
  apply (xml_no_data_skips_save demo [module_of "pkg"] "coverage" demo_world
           "Name  Stmts  Miss  Cover" "No data to report.");
    reflexivity.
Defined.

(** X8. An exception of the XML report or of the save that is not the
    instrumenter's "no data" exception is not caught: the third block of
    [do_coverage] raises it, after the structured report but without
    writing the text summary, and without reaching the threshold check. *)
Theorem summary_other_exception_propagates c prefix threshold l w text e :
  let outfile := expand_path c ("$dir_reports/" +:+ prefix +:+ ".xml") in
  coverage_report c (modules l) = Return text →
  (∀ message, e ≠ CoverageException message) →
  coverage_xml_report c outfile = Raise e
  ∨ (coverage_xml_report c outfile = Return ()
     ∧ coverage_save c = Raise e) →
  ∃ calls,
    do_coverage_finish c prefix threshold l w =
      (Raise e,
       World (properties w) (sys_modules w)
             (trace w ++
              WriteReport (prefix +:+ ".json") (Rendered (report l))
              :: CoverageReport (modules l) :: CoverageXmlReport outfile
              :: calls))
    ∧ (calls = [] ∨ calls = [CoverageSave]).
Proof.
  intros outfile Hreport Hother Hraises.
  unfold do_coverage_finish, _write_summary_report,
    except_CoverageException. run.
  rewrite Hreport. run. fold outfile.
  destruct Hraises as [Hxml|[Hxml Hsave]].
  - rewrite Hxml. run. exists []. split; [|by left].
    destruct e; try (by rewrite <- !app_assoc).
    by destruct (Hother message).
  - rewrite Hxml. run. rewrite Hsave. run.
    exists [CoverageSave]. split; [|by right].
    destruct e; try (by rewrite <- !app_assoc).
    by destruct (Hother message).
Qed.

Lemma summary_other_exception_propagates_witness :
  ∃ calls,
    do_coverage_finish
      demo_xml_fails
      "coverage" (VInt 70) (Locals true (Report [] None) 0 0 []) demo_world =
      (Raise (OtherException "IOError"),
       World (properties demo_world) (sys_modules demo_world)
             (trace demo_world ++
              WriteReport ("coverage" +:+ ".json") (Rendered (Report [] None))
              :: CoverageReport []
              :: CoverageXmlReport ("$dir_reports/" +:+ "coverage" +:+ ".xml")
              :: calls))
    ∧ (calls = [] ∨ calls = [CoverageSave]).
Proof.
  apply (summary_other_exception_propagates
           demo_xml_fails
           "coverage" (VInt 70) (Locals true (Report [] None) 0 0 [])
           demo_world "Name  Stmts  Miss  Cover" (OtherException "IOError")).
  - reflexivity.
  - discriminate.
  - left. reflexivity.
Defined.

(** ** Whole runs *)

(** What a run of [do_coverage] adds to the trace, however it ends: it
    writes one property and starts no process. *)
Lemma do_coverage_frame c prefix name target w :
  ∃ events,
    trace (do_coverage c prefix name target w).2 = trace w ++ events
    ∧ Forall (λ e, match e with
                   | ProcessRun _ _ => False
                   | SetProperty key _ => key = "__running_coverage"
                   | _ => True
                   end) events.
Proof.
  set (running := <["__running_coverage" := VBool true]> (properties w)).
  set (t := task c target running (sys_modules w)).
  destruct (t.1.1) as [u|e] eqn:Htask.
  - destruct (do_coverage_trace c prefix name target w u Htask)
      as (rest & -> & Hstopped & Hraised).
    fold running t in Hstopped, Hraised |- *.
    set (r := reimport_after c prefix t.1.2 t.2) in *.
    eexists. split; [reflexivity|].
    repeat (apply Forall_cons; split; [done|]).
    apply Forall_app. split.
    + apply Forall_forall. intros ev Hev. unfold r, reimport_after in Hev.
      destruct (truth _); [|by apply elem_of_nil in Hev].
      apply reimport_run_events in Hev as (n & _ & [->| ->]); done.
    + destruct (r.1.1) as [[]|e'].
      * destruct Hstopped as (reporting & -> & Hreporting); [done|].
        constructor; [done|].
        eapply Forall_impl; [exact Hreporting|]. by intros [].
      * destruct (Hraised e') as [-> _]; [done|]. constructor.
  - pose proof (do_coverage_run_run c prefix target w) as Hrun.
    cbv zeta in Hrun. fold running in Hrun. fold t in Hrun.
    rewrite Htask in Hrun.
    rewrite (do_coverage_first_block_raises _ _ name _ _ _ _ Hrun).
    eexists. split; [reflexivity|]. by repeat constructor.
Qed.

(** X9. When the task raises, a run without fork raises the same
    exception at once: the instrumenter is never stopped, no module is
    reloaded or analysed, no report is written, and
    ["__running_coverage"] is not reset: the properties and [sys.modules]
    are as the task left them. *)
Theorem task_failure_propagates c prefix name target w e :
  let running := <["__running_coverage" := VBool true]> (properties w) in
  let t := task c target running (sys_modules w) in
  truth (property_value (properties w) (prefix +:+ "_fork")) = false →
  t.1.1 = Raise e →
  run_coverage c prefix name target w =
    (Raise e,
     World t.1.2 t.2
           (trace w ++
            [Log INFO "Collecting coverage information" [];
             CoverageFactory
               [property_value (properties w) "dir_source_main_python"];
             CoverageErase; CoverageStart;
             SetProperty "__running_coverage" (VBool true);
             ExecuteTask target])).
Proof.
  intros running t Hfork Htask.
  rewrite run_coverage_no_fork by done.
  pose proof (do_coverage_run_run c prefix target
                (World (properties w) (sys_modules w)
                   (trace w ++ [Log INFO "Collecting coverage information"
                                    []]))) as Hrun.
  cbv zeta in Hrun. cbn [properties sys_modules trace] in Hrun.
  fold running in Hrun. fold t in Hrun. rewrite Htask in Hrun.
  rewrite (do_coverage_first_block_raises _ _ name _ _ _ _ Hrun).
  by rewrite <- app_assoc.
Qed.

Lemma task_failure_propagates_witness :
  ∃ w',
    run_coverage demo_failing_tests "coverage" "coverage" "run_unit_tests"
                 demo_world
    = (Raise (BuildFailedException "There were test failures" []), w')
    ∧ properties w' !! "__running_coverage" = Some (VBool true)
    ∧ (CoverageStop ∉ trace w').
Proof.
  eexists. split; [|split].
  - apply (task_failure_propagates demo_failing_tests "coverage" "coverage"
             "run_unit_tests" demo_world);
      reflexivity.
  - apply lookup_insert_eq.
  - intros Hstop. vm_compute in Hstop.
    repeat (apply elem_of_cons in Hstop as [Hstop|Hstop];
            [discriminate Hstop|]).
    by apply elem_of_nil in Hstop.
Defined.

(** X13. Without the fork property, [run_coverage] measures in the process
    of the build: it starts no child process, whatever the task and the
    instrumenter do. *)
Theorem run_coverage_in_process c prefix name target w :
  truth (property_value (properties w) (prefix +:+ "_fork")) = false →
  ∃ events,
    trace (run_coverage c prefix name target w).2 = trace w ++ events
    ∧ ∀ child exitcode, ProcessRun child exitcode ∉ events.
Proof.
  intros Hfork. rewrite run_coverage_no_fork by done.
  destruct (do_coverage_frame c prefix name target
              (World (properties w) (sys_modules w)
                 (trace w ++ [Log INFO "Collecting coverage information"
                                  []])))
    as (events & -> & Hevents).
  cbn [trace]. exists (Log INFO "Collecting coverage information" []
                       :: events).
  split; [by rewrite <- app_assoc|].
  intros child exitcode [Hin|Hin]%elem_of_cons; [done|].
  rewrite Forall_forall in Hevents. apply (Hevents _ Hin).
Qed.

Lemma run_coverage_in_process_witness :
  truth (property_value (properties demo_world) "coverage_fork") = false
  ∧ ∃ events,
      trace (run_coverage demo "coverage" "coverage" "run_unit_tests"
                          demo_world).2 = trace demo_world ++ events
      ∧ ∀ child exitcode, ProcessRun child exitcode ∉ events.
Proof.
  split; [reflexivity|].
  apply (run_coverage_in_process demo "coverage" "coverage" "run_unit_tests"
           demo_world).
  reflexivity.
Defined.

(** X10. When the text report itself raises, the third block of
    [do_coverage] raises that exception right after the structured report:
    neither the XML report nor the text summary is written, and the
    threshold check is not reached, so a run marked as failing does not
    raise [BuildFailedException]. *)
Theorem text_report_failure_masks_threshold c prefix threshold l w e :
  coverage_report c (modules l) = Raise e →
  do_coverage_finish c prefix threshold l w =
    (Raise e,
     World (properties w) (sys_modules w)
           (trace w ++
            [WriteReport (prefix +:+ ".json") (Rendered (report l));
             CoverageReport (modules l)])).
Proof.
  intros Hreport. unfold do_coverage_finish. run.
  rewrite (_write_summary_report_raises c _ _ _ e Hreport).
  cbn [properties sys_modules trace]. by rewrite <- app_assoc.
Qed.

Lemma text_report_failure_masks_threshold_witness :
  coverage_report demo_no_data []
  = Raise (CoverageException "No data to report.")
  ∧ (do_coverage_finish demo_no_data "coverage" (VInt 70)
       (Locals true (Report [] None) 0 0 []) demo_world).1
    = Raise (CoverageException "No data to report.").
Proof.
  split; [reflexivity|].
  rewrite (text_report_failure_masks_threshold demo_no_data "coverage"
             (VInt 70) (Locals true (Report [] None) 0 0 []) demo_world
             (CoverageException "No data to report."));
    reflexivity.
Defined.

(** ** The figures of the loop block *)

Lemma elem_of_counted exceptions ms (n : string) (m : module) :
  (n, m) ∈ counted exceptions ms ↔ (n, m) ∈ ms ∧ (n ∉ exceptions).
Proof. unfold counted. rewrite list_elem_of_filter. cbn. tauto. Qed.

Lemma uncovered_lines_bounds a exceptions ms :
  (∀ n m, (n, m) ∈ ms → n ∉ exceptions →
          len (analysis_missing (a m)) ≤ len (analysis_statements (a m))) →
  0 ≤ uncovered_lines_all_modules a exceptions ms
    ≤ total_lines_all_modules a exceptions ms.
Proof.
  intros Hsane.
  assert (∀ n m, (n, m) ∈ counted exceptions ms →
            len (analysis_missing (a m))
            ≤ len (analysis_statements (a m))) as Hcounted.
  { intros n m Hin. rewrite elem_of_counted in Hin. destruct Hin.
    by apply (Hsane n m). }
  unfold total_lines_all_modules, uncovered_lines_all_modules, sumZ.
  induction (counted exceptions ms) as [|[n m] ps IH]; cbn; [lia|].
  pose proof (Hcounted n m ltac:(left)) as Hhead.
  pose proof (len_nonneg (analysis_missing (a m))).
  assert (∀ n' m', (n', m') ∈ ps →
            len (analysis_missing (a m'))
            ≤ len (analysis_statements (a m'))) as Htail.
  { intros n' m' Hin. apply (Hcounted n' m'). by right. }
  specialize (IH Htail). lia.
Qed.

(** X5. With a list of exceptions, a number for a threshold and an
    instrumenter that returns the analyses: when every counted module has
    at most as many uncovered as executable lines, the overall figure is
    between 0 and 100. *)
Theorem overall_coverage_bounds c a prefix name threshold limit xs w :
  let ms :=
    analysed (sys_modules w)
      (discover_modules c (expand_path c "$dir_source_main_python")) in
  property_value (properties w) (prefix +:+ "_exceptions") = VList xs →
  as_number threshold = Some limit →
  analysis_is c a ms →
  (∀ n m, (n, m) ∈ ms → n ∉ xs →
          len (analysis_missing (a m)) ≤ len (analysis_statements (a m))) →
  ∃ l w' overall,
    do_coverage_analyse c prefix name threshold w = (Return l, w')
    ∧ dict_overall_coverage (report l) = Some overall
    ∧ (0 <= to_Q overall <= 100)%Q.
Proof.
  intros ms Hxs Hlimit Ha Hsane.
  rewrite (do_coverage_analyse_run c a prefix name threshold limit xs)
    by done.
  do 3 eexists. split; [reflexivity|]. split; [reflexivity|].
  fold ms. unfold overall_coverage_as_stated.
  pose proof (total_lines_nonneg a xs ms).
  pose proof (uncovered_lines_bounds a xs ms Hsane).
  case_decide; cbn [to_Q]; [split; discriminate|].
  split.
  - apply (quotient_ge _ _ 0); lia.
  - apply (quotient_le _ _ 100); lia.
Qed.

Lemma overall_coverage_bounds_witness :
  property_value (properties demo_world_exempt) "coverage_exceptions"
  = VList ["pkg.b"]
  ∧ ∃ l w' overall,
      do_coverage_analyse demo "coverage" "coverage" (VInt 50)
                          demo_world_exempt = (Return l, w')
      ∧ dict_overall_coverage (report l) = Some overall
      ∧ (0 <= to_Q overall <= 100)%Q.
Proof.
  split; [reflexivity|].
  apply (overall_coverage_bounds demo demo_analysis "coverage" "coverage"
           (VInt 50) (Int 50) ["pkg.b"] demo_world_exempt).
  - reflexivity.
  - reflexivity.
  - by intros n m _.
  - intros n m Hin _. vm_compute in Hin.
    repeat (apply elem_of_cons in Hin as [[= -> ->]|Hin];
            [vm_compute; discriminate|]).
    by apply elem_of_nil in Hin.
Defined.

(** X4. With a list of exceptions, a number for a threshold and an
    instrumenter that returns the analyses: when every discovered module
    that is loaded is in the exception list (or none is loaded), no line
    counts: the overall figure is 0, and the run is marked as failing
    exactly when the threshold is above 0. *)
Theorem nothing_counted_overall_zero c a prefix name threshold limit xs w :
  let names := discover_modules c (expand_path c "$dir_source_main_python") in
  property_value (properties w) (prefix +:+ "_exceptions") = VList xs →
  as_number threshold = Some limit →
  analysis_is c a (analysed (sys_modules w) names) →
  (∀ n, n ∈ names → is_Some (sys_modules w !! n) → n ∈ xs) →
  ∃ l w',
    do_coverage_analyse c prefix name threshold w = (Return l, w')
    ∧ dict_overall_coverage (report l) = Some (Int 0)
    ∧ sum_lines l = 0
    ∧ (coverage_too_low l = true ↔ (0 < to_Q limit)%Q).
Proof.
  intros names Hxs Hlimit Ha Hexempt.
  rewrite (do_coverage_analyse_run c a prefix name threshold limit xs)
    by done.
  fold names.
  assert (counted xs (analysed (sys_modules w) names) = []) as Hnone.
  { apply elem_of_nil_inv. intros [n m] Hin.
    rewrite elem_of_counted, elem_of_analysed in Hin.
    destruct Hin as [[Hn Hm] Hout]. apply Hout, Hexempt; eauto. }
  assert (total_lines_all_modules a xs (analysed (sys_modules w) names) = 0)
    as Htotal.
  { unfold total_lines_all_modules. by rewrite Hnone. }
  assert (overall_coverage_as_stated a xs (analysed (sys_modules w) names)
          = Int 0) as Hoverall.
  { unfold overall_coverage_as_stated. by rewrite Htotal. }
  do 2 eexists. split; [reflexivity|].
  cbn [report dict_overall_coverage sum_lines coverage_too_low].
  rewrite Hoverall, Htotal. split; [done|]. split; [done|].
  assert (existsb (fails_threshold a limit xs)
                  (analysed (sys_modules w) names) = false) as ->.
  { apply not_true_is_false. rewrite fails_threshold_exists.
    intros (n & m & Hin & Hout & _).
    apply elem_of_analysed in Hin as [Hn Hm]. apply Hout, Hexempt; eauto. }
  cbn [orb]. apply number_ltb_lt.
Qed.

Lemma nothing_counted_overall_zero_witness :
  property_value (properties demo_world) "coverage_exceptions" = VList []
  ∧ ∃ l w',
      do_coverage_analyse demo "coverage" "coverage" (VInt 70)
        (World (properties demo_world) ∅ []) = (Return l, w')
      ∧ dict_overall_coverage (report l) = Some (Int 0)
      ∧ sum_lines l = 0
      ∧ (coverage_too_low l = true ↔ (0 < to_Q (Int 70))%Q).
Proof.
  split; [reflexivity|].
  apply (nothing_counted_overall_zero demo demo_analysis "coverage"
           "coverage" (VInt 70) (Int 70) []
           (World (properties demo_world) ∅ [])).
  - reflexivity.
  - reflexivity.
  - by intros n m _.
  - intros n _ [m Hm]. cbn in Hm. by rewrite lookup_empty in Hm.
Defined.

(** ** Modules that are not imported *)

Lemma analysed_names a loaded names :
  report_module <$> (module_report_of a <$> analysed loaded names)
  = filter (λ n, is_Some (loaded !! n)) names.
Proof.
  induction names as [|n names IH]; [done|].
  rewrite filter_cons. destruct (loaded !! n) as [m|] eqn:Hn.
  - rewrite (analysed_cons_imported _ _ m) by done.
    rewrite decide_True by eauto. cbn [fmap list_fmap].
    by rewrite <- IH.
  - rewrite analysed_cons_not_imported by done.
    rewrite decide_False by (by intros [? ?]). done.
Qed.

Lemma analysed_modules loaded names :
  (analysed loaded names).*2 = omap (λ n, loaded !! n) names.
Proof.
  induction names as [|n names IH]; [done|].
  cbn [omap list_omap]. destruct (loaded !! n) as [m|] eqn:Hn.
  - rewrite (analysed_cons_imported _ _ m) by done. cbn. by rewrite IH.
  - by rewrite analysed_cons_not_imported.
Qed.

Lemma analyse_events_requests a limit exceptions loaded names :
  omap (λ e, match e with CoverageAnalysis m => Some m | _ => None end)
       (flat_map (analyse_events a limit exceptions loaded) names)
  = (analysed loaded names).*2.
Proof.
  induction names as [|n names IH]; [done|].
  cbn [flat_map]. rewrite omap_app, IH. unfold analyse_events at 1.
  destruct (loaded !! n) as [m|] eqn:Hn.
  - rewrite (analysed_cons_imported _ _ m) by done.
    by destruct (number_ltb _ _).
  - by rewrite analysed_cons_not_imported.
Qed.

(** X2. With a list of exceptions, a number for a threshold and an
    instrumenter that returns the analyses, a discovered module that is not
    a key of [sys.modules] is skipped with a warning and nothing else: the
    report has one entry for each discovered name that is loaded, in the
    order of discovery; the instrumenter is asked for the analysis of
    exactly these modules, in that order, and they are the ones later
    handed to its text report.  The block returns and leaves the
    properties and [sys.modules] as they were. *)
Theorem not_imported_modules_skipped c a prefix name threshold limit xs w :
  let names := discover_modules c (expand_path c "$dir_source_main_python") in
  property_value (properties w) (prefix +:+ "_exceptions") = VList xs →
  as_number threshold = Some limit →
  analysis_is c a (analysed (sys_modules w) names) →
  ∃ l events,
    do_coverage_analyse c prefix name threshold w =
      (Return l,
       World (properties w) (sys_modules w) (trace w ++ events))
    ∧ report_module <$> dict_module_names (report l)
      = filter (λ n, is_Some (sys_modules w !! n)) names
    ∧ modules l = omap (λ n, sys_modules w !! n) names
    ∧ omap (λ e, match e with CoverageAnalysis m => Some m | _ => None end)
           events
      = modules l
    ∧ (∀ n, n ∈ names → sys_modules w !! n = None →
         Log WARN ("Module not imported: " +:+ n
                   +:+ ". No coverage information available.") []
         ∈ events).
Proof.
  intros names Hxs Hlimit Ha.
  rewrite (do_coverage_analyse_run c a prefix name threshold limit xs)
    by done.
  fold names. do 2 eexists. split; [reflexivity|].
  cbn [report dict_module_names modules].
  split; [apply analysed_names|]. split; [apply analysed_modules|]. split.
  - rewrite omap_app, analyse_events_requests.
    unfold overall_event. destruct (number_ltb _ _); cbn;
      by rewrite app_nil_r.
  - intros n Hn Hloaded. apply elem_of_app. left.
    apply list_elem_of_In, in_flat_map. exists n.
    split; [by apply list_elem_of_In|].
    unfold analyse_events. rewrite Hloaded. by left.
Qed.

Lemma not_imported_modules_skipped_witness :
  property_value (properties demo_world) "coverage_exceptions" = VList []
  ∧ ∃ l events,
      do_coverage_analyse demo "coverage" "coverage" (VInt 70) demo_world =
        (Return l,
         World (properties demo_world) (sys_modules demo_world)
               (trace demo_world ++ events))
      ∧ Log WARN "Module not imported: pkg.gone. No coverage information available." []
        ∈ events.
Proof.
  split; [reflexivity|].
  destruct (not_imported_modules_skipped demo demo_analysis "coverage"
              "coverage" (VInt 70) (Int 70) [] demo_world)
    as (l & events & Hrun & _ & _ & _ & Hwarned);
    [reflexivity | reflexivity | by intros n m _ |].
  exists l, events. split; [exact Hrun|].
  apply (Hwarned "pkg.gone"); [|reflexivity].
  vm_compute. by repeat constructor.
Defined.

(** ** Settings of the wrong type *)


